(** * The embedded SSH client of package ssh (ssh_gocrypto.go)

    A shallow embedding of [GoCryptoClient], [goCryptoCommand] and the
    helpers they use, together with the properties of the design
    document that concern them.

    Layout:
    - [GoStrings]: the functions of Go's [strings], [strconv] and [net]
      packages that the client calls, on byte strings;
    - [Runtime]: the world the client runs in (event log, slice heap,
      process-wide key store) and the oracle that answers external calls;
    - [Client]: the client itself, method by method;
    - the theorems. *)

From Stdlib Require Import ZArith String Ascii DecimalString.
From stdpp Require Import base gmap list strings.

Open Scope string_scope.
Open Scope list_scope.

(* ================================================================== *)
(** * Go library functions on strings *)
(* ================================================================== *)

Module GoStrings.

(** A Go string is a sequence of bytes; [string] is a list of 8-bit
    [ascii] values, so the two agree byte for byte. *)

(** [s[:n]] *)
Fixpoint take_str (n : nat) (s : string) : string :=
  match n, s with
  | S n', String c s' => String c (take_str n' s')
  | _, _ => ""
  end.

(** [s[n:]] *)
Fixpoint drop_str (n : nat) (s : string) : string :=
  match n, s with
  | S n', String _ s' => drop_str n' s'
  | _, _ => s
  end.

(** [strings.HasPrefix(s, p)] *)
Fixpoint HasPrefix (s p : string) {struct p} : bool :=
  match p, s with
  | "", _ => true
  | String a p', String b s' => Ascii.eqb a b && HasPrefix s' p'
  | String _ _, "" => false
  end.

(** [strings.Index(s, sep)]: the position of the first occurrence of
    [sep] in [s]; Go's [-1] is [None]. *)
Fixpoint Index (s sep : string) : option nat :=
  if HasPrefix s sep then Some 0
  else match s with
       | "" => None
       | String _ s' => S <$> Index s' sep
       end.

(** [strings.IndexByte(s, c)] *)
Fixpoint IndexByte (s : string) (c : ascii) : option nat :=
  match s with
  | "" => None
  | String b s' => if Ascii.eqb b c then Some 0 else S <$> IndexByte s' c
  end.

(** [strings.LastIndexByte(s, c)] *)
Fixpoint LastIndexByte (s : string) (c : ascii) : option nat :=
  match s with
  | "" => None
  | String b s' =>
      match LastIndexByte s' c with
      | Some i => Some (S i)
      | None => if Ascii.eqb b c then Some 0 else None
      end
  end.

(** [strings.SplitN(s, sep, n)] for a non-empty [sep] and [n >= 0]: at
    most [n] pieces, the last one being the unsplit remainder.  (With an
    empty [sep] Go splits after each UTF-8 sequence; the client never
    does that.) *)
Fixpoint SplitN (s sep : string) (n : nat) : list string :=
  match n with
  | 0 => []
  | S n' =>
      match n', Index s sep with
      | S _, Some m =>
          take_str m s :: SplitN (drop_str (m + String.length sep) s) sep n'
      | _, _ => [s]
      end
  end.

(** The loop of [strings.Replace]: copy up to the next occurrence of
    [old], write [new], continue after the occurrence.  [fuel] bounds
    the number of replacements. *)
Fixpoint replace_loop (fuel : nat) (s old new : string) : string :=
  match fuel with
  | 0 => s
  | S fuel' =>
      match Index s old with
      | None => s
      | Some j =>
          take_str j s +:+ new +:+
          replace_loop fuel' (drop_str (j + String.length old) s) old new
      end
  end.

(** [strings.Replace(s, old, new, -1)] for a non-empty [old]: every
    non-overlapping occurrence, left to right.  A string of length [n]
    holds at most [n] of them, so [String.length s] replacements are
    enough. *)
Definition Replace (s old new : string) : string :=
  replace_loop (String.length s) s old new.

(** [strconv.Itoa] *)
Definition Itoa (n : Z) : string := NilZero.string_of_int (Z.to_int n).

(** [net.JoinHostPort]: a host that holds a colon is put in brackets. *)
Definition JoinHostPort (host port : string) : string :=
  match IndexByte host ":" with
  | Some _ => "[" +:+ host +:+ "]:" +:+ port
  | None => host +:+ ":" +:+ port
  end.

Definition missingPort : string := "missing port in address".
Definition tooManyColons : string := "too many colons in address".

(** The last two checks of [net.SplitHostPort] and its result. *)
Definition splitHostPort_finish (hostport host : string) (i j k : nat)
  : string + string * string :=
  match IndexByte (drop_str j hostport) "[" with
  | Some _ => inl "unexpected '[' in address"
  | None =>
      match IndexByte (drop_str k hostport) "]" with
      | Some _ => inl "unexpected ']' in address"
      | None => inr (host, drop_str (S i) hostport)
      end
  end.

(** [net.SplitHostPort]: [inr (host, port)], or [inl why] where Go
    returns two empty strings and an [AddrError] with reason [why]. *)
Definition SplitHostPort (hostport : string) : string + string * string :=
  match LastIndexByte hostport ":" with
  | None => inl missingPort
  | Some i =>
      if HasPrefix hostport "[" then
        match IndexByte hostport "]" with
        | None => inl "missing ']' in address"
        | Some e =>
            if (S e =? String.length hostport)%nat then inl missingPort
            else if (S e =? i)%nat then
              splitHostPort_finish hostport
                (take_str (e - 1) (drop_str 1 hostport)) i 1 (S e)
            else if HasPrefix (drop_str (S e) hostport) ":"
                 then inl tooManyColons
                 else inl missingPort
        end
      else
        let host := take_str i hostport in
        match IndexByte host ":" with
        | Some _ => inl tooManyColons
        | None => splitHostPort_finish hostport host i 0 0
        end
  end.

End GoStrings.

Import GoStrings.

(* ================================================================== *)
(** * The world the client runs in *)
(* ================================================================== *)

Module Runtime.

(** An [ssh.Signer], known by the identity of its key. *)
Definition Signer : Type := nat.

(** An [io.Reader] or [io.Writer] handed to [SetStdio]; [None] is nil. *)
Definition stdio : Type := option nat.

(** Error values: those this package makes with [errors.Errorf], and
    those a library call returned, which the package passes around
    without looking inside. *)
Inductive error : Type :=
  | Errorf (msg : string)
  | Foreign (msg : string).

(** A [net.Conn].  [net.Pipe()] makes two of them at once, the two ends
    of one in-memory pipe. *)
Inductive conn : Type :=
  | TCPConn (id : nat)
  | PipeClient (id : nat)
  | PipeServer (id : nat).

(** What [logger.Tracef] is given. *)
Inductive logmsg : Type :=
  | LogRunning (user host : string) (port : Z) (shellCommand : string)
  | LogProxy (argv : list string).

(** Every call that leaves the package, in the order the calls are made. *)
Inductive event : Type :=
  | EvPrivateKeys
      (** [privateKeys()]: the process-wide key store is read *)
  | EvTracef (m : logmsg)
  | EvCurrentUser
      (** [user.Current()] *)
  | EvDial (addr : string)
      (** the TCP dial of [ssh.Dial] *)
  | EvPipe (id : nat)
      (** [net.Pipe()], opening [PipeClient id] and [PipeServer id] *)
  | EvProcStart (argv : list string) (io : conn)
      (** [exec.Command(argv[0], argv[1:]...)], stdin and stdout wired to
          [io], then [cmd.Start()] *)
  | EvHandshake (c : conn) (addr user : string) (keys : list Signer)
      (** the client handshake of [ssh.NewClientConn] on [c] *)
  | EvConnClose (c : conn)
  | EvNewSession (c : conn)
      (** [client.NewSession()] on the client over [c] *)
  | EvSessClose (s : nat)
  | EvShell (s : nat)
      (** [sess.Shell()]: a "shell" request *)
  | EvExec (s : nat) (cmd : string)
      (** [sess.Start(cmd)]: an "exec" request carrying [cmd] *)
  | EvSessWait (s : nat)
  | EvSignalKill (s : nat)
  | EvStdinPipe (s : nat)
  | EvStdoutPipe (s : nat)
  | EvStderrPipe (s : nat).

(** A Go slice of strings: a window of [s_len] elements, starting at
    [s_off], on the backing array [s_arr].  Copying the slice value
    copies the window, not the elements.  The nil slice has length 0. *)
Record slice : Type := Slice { s_arr : nat; s_off : nat; s_len : nat }.

Definition nil_slice : slice := Slice 0 0 0.

(** The backing arrays. *)
Abbreviation heap := (gmap nat (list string)).

(** [sl[i]] *)
Definition slice_get (h : heap) (sl : slice) (i : nat) : string :=
  default "" (h !! s_arr sl ≫= λ a : list string, a !! (s_off sl + i)%nat).

(** [sl[i] = v] *)
Definition slice_set (h : heap) (sl : slice) (i : nat) (v : string) : heap :=
  alter (λ a : list string, <[(s_off sl + i)%nat := v]> a) (s_arr sl) h.

(** The elements seen through the window. *)
Definition slice_elems (h : heap) (sl : slice) : list string :=
  slice_get h sl <$> seq 0 (s_len sl).

(** The array [a] after the first [n] elements of the window were
    replaced by their images under [f]. *)
Definition rewritten (f : string → string) (sl : slice) (a : list string)
    (n : nat) : list string :=
  take (s_off sl) a ++ (f <$> take n (drop (s_off sl) a))
  ++ drop (s_off sl + n) a.

(** The window is empty (as that of the nil slice is) or lies within
    its backing array, as it does for every slice a Go program can
    build. *)
Definition slice_wf (h : heap) (sl : slice) : Prop :=
  s_len sl = 0 ∨
  ∃ a : list string, h !! s_arr sl = Some a ∧ (s_off sl + s_len sl ≤ length a)%nat.

Record World : Type := MkWorld {
  w_log : list event;       (** the calls made so far, oldest first *)
  w_heap : heap;            (** backing arrays of string slices *)
  w_keys : list Signer      (** the keys [LoadClientKeys] has stored *)
}.

(** The answers of everything outside the package, as functions of the
    calls made so far (the call being answered is the last of them). *)
Record Env : Type := MkEnv {
  outcome : list event → option string;
    (** the error of the last call, [None] when it succeeds *)
  username : list event → string
    (** [Username] of the account [user.Current()] finds *)
}.

(** Computations that read and change the world. *)
Definition M (A : Type) : Type := World → A * World.

#[global] Instance M_ret : MRet M := λ A a w, (a, w).
#[global] Instance M_bind : MBind M :=
  λ A B f m w, let '(a, w') := m w in f a w'.

Definition log_event (ev : event) (w : World) : World :=
  MkWorld (w_log w ++ [ev]) (w_heap w) (w_keys w).

(** A call whose result is not looked at. *)
Definition emit (ev : event) : M unit := λ w, ((), log_event ev w).

(** A call that may fail. *)
Definition call (E : Env) (ev : event) : M (option error) :=
  λ w, (Foreign <$> outcome E (w_log (log_event ev w)), log_event ev w).

(** An identity for an object about to be made: the number of calls so
    far, which never repeats since the log only grows. *)
Definition fresh : M nat := λ w, (length (w_log w), w).

Definition get_heap : M heap := λ w, (w_heap w, w).

Definition modify_heap (f : heap → heap) : M unit :=
  λ w, ((), MkWorld (w_log w) (f (w_heap w)) (w_keys w)).

(** The events logged from [w] to [w']. *)
Definition since (w w' : World) : list event :=
  drop (length (w_log w)) (w_log w').

End Runtime.

Import Runtime.

(* ================================================================== *)
(** * The client *)
(* ================================================================== *)

Module Client.

Definition sshDefaultPort : Z := 22.

(** [GoCryptoClient] *)
Record GoCryptoClient : Type := MkClient { client_signers : list Signer }.

(** [Options], as far as this client reads it. *)
Record Options : Type := MkOptions {
  opt_port : Z;
  opt_proxyCommand : slice
}.

(** An [*ssh.Session]: the session channel [sess_id] on the client over
    [sess_conn], with the three stdio fields the handle assigns. *)
Record Session : Type := MkSession {
  sess_id : nat;
  sess_conn : conn;
  Stdin : stdio;
  Stdout : stdio;
  Stderr : stdio
}.

(** [goCryptoCommand].  An [*ssh.Client] is known by the connection it
    wraps. *)
Record goCryptoCommand : Type := MkCommand {
  signers : list Signer;
  user : string;
  addr : string;
  command : string;
  proxyCommand : slice;
  stdin : stdio;
  stdout : stdio;
  stderr : stdio;
  client : option conn;
  sess : option Session
}.

(** [ssh.ClientConfig]: the user, and the keys the [PublicKeysCallback]
    hands out. *)
Record ClientConfig : Type := MkConfig {
  cfg_User : string;
  cfg_keys : list Signer
}.

(** How a method call ends. *)
Inductive completion : Type :=
  | Returns (err : option error)
  | Panics.

Definition errNoKeys : error := Errorf "no private keys available".
Definition errNotStarted : error := Errorf "command has not been started".
Definition errNoScp : error :=
  Errorf "scp command is not implemented (OpenSSH scp not available in PATH)".

(** [splitUserHost] *)
Definition splitUserHost (s : string) : string * string :=
  match SplitN s "@" 2 with
  | [u; h] => (u, h)
  | h :: _ => ("", h)
  | [] => ("", "")
  end.

(** [privateKeys()], of clientkeys.go: a copy of the keys that
    [LoadClientKeys] stored process-wide. *)
Definition privateKeys : M (list Signer) :=
  λ w, (w_keys w, log_event EvPrivateKeys w).

Section WithEnvironment.

(** [utils.CommandString] lives in another package of the repository;
    the client only passes its result on. *)
Variable CommandString : list string → string.

Variable E : Env.

(** [GoCryptoClient.Command] *)
Definition Command (c : GoCryptoClient) (host : string)
    (cmd : list string) (options : option Options) : M goCryptoCommand :=
  let shellCommand := CommandString cmd in
  keys ← (if decide (length (client_signers c) = 0)
          then privateKeys else mret (client_signers c));
  let '(usr, host) := splitUserHost host in
  let port :=
    match options with
    | Some o => if decide (opt_port o ≠ 0%Z) then opt_port o else sshDefaultPort
    | None => sshDefaultPort
    end in
  let proxy :=
    match options with
    | Some o => opt_proxyCommand o
    | None => nil_slice
    end in
  _ ← emit (EvTracef (LogRunning usr host port shellCommand));
  mret {| signers := keys; user := usr;
          addr := JoinHostPort host (Itoa port);
          command := shellCommand; proxyCommand := proxy;
          stdin := None; stdout := None; stderr := None;
          client := None; sess := None |}.

(** [GoCryptoClient.Copy] *)
Definition Copy (c : GoCryptoClient) (args : list string)
    (options : option Options) : M (option error) :=
  mret (Some errNoScp).

(** [user.Current()]: the [Username] of the account found, or the
    message of the error. *)
Definition user_Current : M (string + string) :=
  λ w, let w' := log_event EvCurrentUser w in
       (match outcome E (w_log w') with
        | Some msg => inl msg
        | None => inr (username E (w_log w'))
        end, w').

(** [ssh.NewClientConn], as golang.org/x/crypto/ssh has it: when the
    handshake fails the library closes the connection it was given and
    returns the error. *)
Definition NewClientConn (c : conn) (address : string)
    (config : ClientConfig) : M (option error) :=
  r ← call E (EvHandshake c address (cfg_User config) (cfg_keys config));
  match r with
  | Some e => _ ← emit (EvConnClose c); mret (Some e)
  | None => mret None
  end.

(** [sshDial], which is [ssh.Dial]: dial, then [NewClientConn]. *)
Definition sshDial (address : string) (config : ClientConfig)
  : M (error + conn) :=
  id ← fresh;
  r ← call E (EvDial address);
  match r with
  | Some e => mret (inl e)
  | None =>
      r ← NewClientConn (TCPConn id) address config;
      match r with
      | Some e => mret (inl e)
      | None => mret (inr (TCPConn id))
      end
  end.

(** The body of the loop of [sshDialWithProxy] on one argument. *)
Definition substitute (host port usr arg : string) : string :=
  let arg := Replace arg "%h" host in
  let arg := if decide (port ≠ "") then Replace arg "%p" port else arg in
  Replace arg "%r" usr.

(** [for i, arg := range proxyCommand { ...; proxyCommand[i] = arg }] *)
Definition substitute_in_place (host port usr : string) (sl : slice)
    (h : heap) : heap :=
  foldl (λ h i, slice_set h sl i (substitute host port usr (slice_get h sl i)))
        h (seq 0 (s_len sl)).

(** [host, port, err := net.SplitHostPort(addr); if err != nil { host =
    addr }]: on an error both results are empty, and the host becomes
    the whole address. *)
Definition proxy_target (address : string) : string * string :=
  match SplitHostPort address with
  | inr hp => hp
  | inl _ => (address, "")
  end.

(** [sshDialWithProxy] *)
Definition sshDialWithProxy (address : string) (proxy : slice)
    (config : ClientConfig) : M (error + conn) :=
  if decide (s_len proxy = 0) then sshDial address config
  else
    let '(host, port) := proxy_target address in
    _ ← modify_heap (substitute_in_place host port (cfg_User config) proxy);
    id ← fresh;
    _ ← emit (EvPipe id);
    h ← get_heap;
    let argv := slice_elems h proxy in
    _ ← emit (EvTracef (LogProxy argv));
    r ← call E (EvProcStart argv (PipeServer id));
    match r with
    | Some e => mret (inl e)
    | None =>
        r ← NewClientConn (PipeClient id) address config;
        match r with
        | Some e => mret (inl e)
        | None => mret (inr (PipeClient id))
        end
    end.

Definition set_user (c : goCryptoCommand) (u : string) : goCryptoCommand :=
  MkCommand (signers c) u (addr c) (command c) (proxyCommand c)
            (stdin c) (stdout c) (stderr c) (client c) (sess c).

Definition set_session (c : goCryptoCommand) (cl : option conn)
    (s : option Session) : goCryptoCommand :=
  MkCommand (signers c) (user c) (addr c) (command c) (proxyCommand c)
            (stdin c) (stdout c) (stderr c) cl s.

(** The part of [ensureSession] after the user name is known. *)
Definition dialSession (c : goCryptoCommand)
  : M (goCryptoCommand * (error + Session)) :=
  let config := MkConfig (user c) (signers c) in
  r ← sshDialWithProxy (addr c) (proxyCommand c) config;
  match r with
  | inl e => mret (c, inl e)
  | inr cl =>
      id ← fresh;
      r ← call E (EvNewSession cl);
      match r with
      | Some e => _ ← call E (EvConnClose cl); mret (c, inl e)
      | None =>
          let s := MkSession id cl (stdin c) (stdout c) (stderr c) in
          mret (set_session c (Some cl) (Some s), inr s)
      end
  end.

(** [goCryptoCommand.ensureSession] *)
Definition ensureSession (c : goCryptoCommand)
  : M (goCryptoCommand * (error + Session)) :=
  match sess c with
  | Some s => mret (c, inr s)
  | None =>
      if decide (length (signers c) = 0) then mret (c, inl errNoKeys)
      else if decide (user c = "") then
        r ← user_Current;
        match r with
        | inl msg =>
            mret (c, inl (Errorf ("getting current user: " +:+ msg)))
        | inr name => dialSession (set_user c name)
        end
      else dialSession c
  end.

(** [goCryptoCommand.Start] *)
Definition Start (c : goCryptoCommand) : M (goCryptoCommand * option error) :=
  '(c, r) ← ensureSession c;
  match r with
  | inl e => mret (c, Some e)
  | inr s =>
      if decide (command c = "")
      then e ← call E (EvShell (sess_id s)); mret (c, e)
      else e ← call E (EvExec (sess_id s) (command c)); mret (c, e)
  end.

(** [goCryptoCommand.Close].  With a session and no client,
    [c.client.Close()] dereferences nil. *)
Definition Close (c : goCryptoCommand) : M (goCryptoCommand * completion) :=
  match sess c with
  | None => mret (c, Returns None)
  | Some s =>
      err0 ← call E (EvSessClose (sess_id s));
      match client c with
      | None => mret (c, Panics)
      | Some cl =>
          err1 ← call E (EvConnClose cl);
          let err0 := match err0 with None => err1 | Some _ => err0 end in
          mret (set_session c None None, Returns err0)
      end
  end.

(** [goCryptoCommand.Wait] *)
Definition Wait (c : goCryptoCommand) : M (goCryptoCommand * completion) :=
  match sess c with
  | None => mret (c, Returns (Some errNotStarted))
  | Some s =>
      err ← call E (EvSessWait (sess_id s));
      '(c, r) ← Close c;
      match r with
      | Returns _ => mret (c, Returns err)
      | Panics => mret (c, Panics)
      end
  end.

(** [goCryptoCommand.Kill] *)
Definition Kill (c : goCryptoCommand) : M (goCryptoCommand * option error) :=
  match sess c with
  | None => mret (c, Some errNotStarted)
  | Some s => e ← call E (EvSignalKill (sess_id s)); mret (c, e)
  end.

(** [goCryptoCommand.SetStdio] *)
Definition SetStdio (c : goCryptoCommand) (i o e : stdio) : goCryptoCommand :=
  MkCommand (signers c) (user c) (addr c) (command c) (proxyCommand c)
            i o e (client c) (sess c).

(** What the pipe methods hand back first: nil, a pipe of the session,
    or [ioutil.NopCloser(r)] around the reader [r] the session gave
    (nil when it gave none). *)
Inductive pipe : Type :=
  | PipeNil
  | SessPipe (s : nat)
  | NopCloser (r : option nat).

(** The pipe, the stream set with [SetStdio], and the error. *)
Definition pipe_result : Type := pipe * stdio * option error.

(** [goCryptoCommand.StdinPipe] *)
Definition StdinPipe (c : goCryptoCommand)
  : M (goCryptoCommand * pipe_result) :=
  '(c, r) ← ensureSession c;
  match r with
  | inl e => mret (c, (PipeNil, None, Some e))
  | inr s =>
      e ← call E (EvStdinPipe (sess_id s));
      let wc := match e with None => SessPipe (sess_id s) | Some _ => PipeNil end in
      mret (c, (wc, Stdin s, e))
  end.

(** [goCryptoCommand.StdoutPipe] *)
Definition StdoutPipe (c : goCryptoCommand)
  : M (goCryptoCommand * pipe_result) :=
  '(c, r) ← ensureSession c;
  match r with
  | inl e => mret (c, (PipeNil, None, Some e))
  | inr s =>
      e ← call E (EvStdoutPipe (sess_id s));
      let wc := match e with None => Some (sess_id s) | Some _ => None end in
      mret (c, (NopCloser wc, Stdout s, e))
  end.

(** [goCryptoCommand.StderrPipe] *)
Definition StderrPipe (c : goCryptoCommand)
  : M (goCryptoCommand * pipe_result) :=
  '(c, r) ← ensureSession c;
  match r with
  | inl e => mret (c, (PipeNil, None, Some e))
  | inr s =>
      e ← call E (EvStderrPipe (sess_id s));
      let wc := match e with None => Some (sess_id s) | Some _ => None end in
      mret (c, (NopCloser wc, Stderr s, e))
  end.

End WithEnvironment.

End Client.

Import Client.

(* ================================================================== *)
(** * Handles in use *)
(* ================================================================== *)

Module Lifecycle.

(** The calls a caller can make on a handle. *)
Inductive op : Type :=
  | OpStart
  | OpClose
  | OpWait
  | OpKill
  | OpSetStdio (i o e : stdio)
  | OpStdinPipe
  | OpStdoutPipe
  | OpStderrPipe.

(** One call; the handle is the receiver, changed in place. *)
Definition run_op (E : Env) (o : op) (c : goCryptoCommand) : M goCryptoCommand :=
  match o with
  | OpStart => r ← Start E c; mret r.1
  | OpClose => r ← Close E c; mret r.1
  | OpWait => r ← Wait E c; mret r.1
  | OpKill => r ← Kill E c; mret r.1
  | OpSetStdio i o e => mret (SetStdio c i o e)
  | OpStdinPipe => r ← StdinPipe E c; mret r.1
  | OpStdoutPipe => r ← StdoutPipe E c; mret r.1
  | OpStderrPipe => r ← StderrPipe E c; mret r.1
  end.

(** A sequence of calls, first to last. *)
Fixpoint run_ops (E : Env) (os : list op) (c : goCryptoCommand)
  : M goCryptoCommand :=
  match os with
  | [] => mret c
  | o :: os => c ← run_op E o c; run_ops E os c
  end.

(** The calls that establish the session when there is none: [Start]
    and the three pipe methods, which begin with [ensureSession]. *)
Definition establishes (o : op) : bool :=
  match o with
  | OpStart | OpStdinPipe | OpStdoutPipe | OpStderrPipe => true
  | OpClose | OpWait | OpKill | OpSetStdio _ _ _ => false
  end.

(** The two session fields go together: a handle holds a session
    exactly when it holds the client the session runs on. *)
Definition handle_ok (c : goCryptoCommand) : Prop :=
  match sess c with
  | Some s => client c = Some (sess_conn s)
  | None => client c = None
  end.

(** The user name the configuration is given at session establishment:
    the one of the handle, or the account's when the handle has none. *)
Definition config_user (E : Env) (c : goCryptoCommand) (w : World) : string :=
  if decide (user c = "") then username E (w_log w ++ [EvCurrentUser])
  else user c.

(** Session establishment reaches the dial when there is no session
    yet, there are keys, and the user is known or can be found. *)
Definition reaches_dial (E : Env) (c : goCryptoCommand) (w : World) : Prop :=
  sess c = None ∧ signers c ≠ [] ∧
  (user c = "" → outcome E (w_log w ++ [EvCurrentUser]) = None).

(** The connection an attempt works on: the one the handshake runs
    over, or the one under the client a session is asked of. *)
Definition attempt_conn (ev : event) : option conn :=
  match ev with
  | EvHandshake cn _ _ _ => Some cn
  | EvNewSession cn => Some cn
  | _ => None
  end.

(** The pipe ends that [net.Pipe()] calls opened. *)
Definition pipe_ends_opened (evs : list event) : list conn :=
  evs ≫= λ ev, match ev with
               | EvPipe id => [PipeClient id; PipeServer id]
               | _ => []
               end.

(** The connections closed. *)
Definition conns_closed (evs : list event) : list conn :=
  evs ≫= λ ev, match ev with EvConnClose cn => [cn] | _ => [] end.

(** The argument vectors of the processes started. *)
Definition spawned (evs : list event) : list (list string) :=
  evs ≫= λ ev, match ev with EvProcStart argv _ => [argv] | _ => [] end.

(** Calls that reach the network, a process or the account database. *)
Definition is_io (ev : event) : bool :=
  match ev with
  | EvPrivateKeys | EvTracef _ => false
  | _ => true
  end.

End Lifecycle.

Import Lifecycle.

(* ================================================================== *)
(** * Concrete clients, worlds and environments *)
(* ================================================================== *)

Module Examples.

(** An instance of the command-string function for the examples:
    arguments joined by single spaces. *)
Definition joined (args : list string) : string := String.concat " " args.

(** The external call that was made last. *)
Definition last_call (evs : list event) : option event := last evs.

(** Every external call succeeds; the account is "me". *)
Definition all_succeed : Env := MkEnv (λ _, None) (λ _, "me").

(** Every handshake is rejected. *)
Definition handshake_fails : Env :=
  MkEnv (λ evs, match last_call evs with
                | Some (EvHandshake _ _ _ _) => Some "ssh: handshake failed"
                | _ => None
                end)
        (λ _, "me").

(** The remote command exits with a non-zero status. *)
Definition remote_fails : Env :=
  MkEnv (λ evs, match last_call evs with
                | Some (EvSessWait _) => Some "Process exited with status 1"
                | _ => None
                end)
        (λ _, "me").

(** The server refuses to open a session channel. *)
Definition session_refused : Env :=
  MkEnv (λ evs, match last_call evs with
                | Some (EvNewSession _) => Some "ssh: rejected: administratively prohibited"
                | _ => None
                end)
        (λ _, "me").

Definition one_key : GoCryptoClient := MkClient [1%nat].
Definition no_keys : GoCryptoClient := MkClient [].

(** The template ["nc", "%h", "%p"] in array 7, nothing logged, no key
    stored. *)
Definition nc_template : slice := Slice 7 0 3.
Definition nc_world : World :=
  MkWorld [] {[ 7%nat := ["nc"; "%h"; "%p"] ]} [].

Definition nc_options : Options := MkOptions 0 nc_template.
Definition nc_options_5432 : Options := MkOptions 5432 nc_template.

(** The same world once [LoadClientKeys] has stored a key. *)
Definition nc_world_with_key : World :=
  MkWorld [] {[ 7%nat := ["nc"; "%h"; "%p"] ]} [5%nat].

(** The template ["nc", "%h", "%p", "%r"] as the tail of array 3. *)
Definition ncr_template : slice := Slice 3 1 4.
Definition ncr_world : World :=
  MkWorld [] {[ 3%nat := ["ssh"; "nc"; "%h"; "%p"; "%r"] ]} [].

(** A handle with a live session, as [ensureSession] leaves it. *)
Definition live_session : Session := MkSession 4 (TCPConn 1) None None None.
Definition live_handle : goCryptoCommand :=
  MkCommand [1%nat] "alice" "host:2222" "echo hi" nil_slice
            None None None (Some (TCPConn 1)) (Some live_session).

(** A handle that was never started. *)
Definition idle_handle : goCryptoCommand :=
  MkCommand [1%nat] "alice" "host:2222" "echo hi" nil_slice
            None None None None None.

End Examples.

Import Examples.

(* ================================================================== *)
(** * What a log shows *)
(* ================================================================== *)

Module Observations.

(** The addresses dialled over TCP. *)
Definition dialed (evs : list event) : list string :=
  evs ≫= λ ev, match ev with EvDial a => [a] | _ => [] end.

(** The handshakes run: the connection, the address, the user and the
    keys offered. *)
Definition handshakes (evs : list event)
  : list (conn * string * string * list Signer) :=
  evs ≫= λ ev, match ev with
               | EvHandshake cn a u ks => [(cn, a, u, ks)]
               | _ => []
               end.

(** The sessions closed. *)
Definition sessions_closed (evs : list event) : list nat :=
  evs ≫= λ ev, match ev with EvSessClose s => [s] | _ => [] end.

(** The calls that leave a session in place: all but [Close] and
    [Wait], which clear it. *)
Definition keeps_session (o : op) : bool :=
  match o with
  | OpClose | OpWait => false
  | _ => true
  end.

(** Element [j] of array [k], if there is one. *)
Definition cell (h : heap) (k j : nat) : option string :=
  h !! k ≫= λ a : list string, a !! j.

(** Position [j] of array [k] lies in the window of [sl]. *)
Definition in_window (sl : slice) (k j : nat) : Prop :=
  k = s_arr sl ∧ (s_off sl ≤ j < s_off sl + s_len sl)%nat.

End Observations.

Import Observations.

(* ================================================================== *)
(** * The package manager (packaging/manager/manager.go) *)
(* ================================================================== *)

Module Manager.

(** What [SetProxy] does outside the package: it runs commands and
    writes to the error log. *)
Inductive shell_event : Type :=
  | Ran (args : list string)
      (** [runCommand(args[0], args[1:]...)] *)
  | LoggedError (err : string) (args : list string) (out : string)
      (** [logger.Errorf("command failed: ...", err, args, out)] *).

Section WithCommander.

(** [proxy.Settings] and [pm.cmder.SetProxyCmds], of other packages. *)
Variable Settings : Type.
Variable SetProxyCmds : Settings → list string.

(** [fmt.Sprintf("%q", cmd)]: the command as a quoted Go string. *)
Variable Quote : string → string.

(** [runCommand]: the combined output and the error, if any, of
    running [args] after what was run before. *)
Variable runCommand : list shell_event → list string → string * option string.

(** [[]string{"bash", "-c", fmt.Sprintf("%q", cmd)}] *)
Definition bash_c (cmd : string) : list string := ["bash"; "-c"; Quote cmd].

(** The loop of [SetProxy] over the commands left to run. *)
Fixpoint setProxyLoop (cmds : list string) (log : list shell_event)
  : option string * list shell_event :=
  match cmds with
  | [] => (None, log)
  | cmd :: cmds =>
      let args := bash_c cmd in
      let '(out, err) := runCommand log args in
      let log := log ++ [Ran args] in
      match err with
      | Some e =>
          (Some ("command failed: " +:+ e), log ++ [LoggedError e args out])
      | None => setProxyLoop cmds log
      end
  end.

(** [basePackageManager.SetProxy]: the message of the error returned
    ([None] for nil) and the log afterwards. *)
Definition SetProxy (settings : Settings) (log : list shell_event)
  : option string * list shell_event :=
  setProxyLoop (SetProxyCmds settings) log.

(** Every command of [cmds], run in order after [log], succeeds. *)
Definition all_succeeded (log : list shell_event) (cmds : list string) : Prop :=
  ∀ (i : nat) (cmd : string),
    cmds !! i = Some cmd →
    (runCommand (log ++ (Ran ∘ bash_c <$> take i cmds)) (bash_c cmd)).2 = None.

End WithCommander.

(** A shell in which [false] fails and everything else succeeds, with
    each command put between single quotes. *)
Definition plain_quote (cmd : string) : string := "'" +:+ cmd +:+ "'".

Definition false_fails (log : list shell_event) (args : list string)
  : string * option string :=
  if decide (args = ["bash"; "-c"; "'false'"]) then ("", Some "exit status 1")
  else ("", None).

End Manager.

(* ================================================================== *)
(** * More concrete environments and handles *)
(* ================================================================== *)

Module MoreExamples.

(** The remote side refuses the exec and shell requests. *)
Definition request_refused : Env :=
  MkEnv (λ evs, match last_call evs with
                | Some (EvExec _ _) | Some (EvShell _) => Some "ssh: request failed"
                | _ => None
                end)
        (λ _, "me").


(** Nothing answers on the network. *)
Definition dial_fails : Env :=
  MkEnv (λ evs, match last_call evs with
                | Some (EvDial _) => Some "dial tcp: connection refused"
                | _ => None
                end)
        (λ _, "me").

(** Closing a session fails; everything else succeeds. *)
Definition session_close_fails : Env :=
  MkEnv (λ evs, match last_call evs with
                | Some (EvSessClose _) => Some "EOF"
                | _ => None
                end)
        (λ _, "me").

(** A handle that names no user. *)
Definition anon_handle : goCryptoCommand :=
  MkCommand [1%nat] "" "host:22" "ls" nil_slice None None None None None.

(** A handle with its three streams set. *)
Definition wired_handle : goCryptoCommand :=
  MkCommand [1%nat] "alice" "host:2222" "echo hi" nil_slice
            (Some 7%nat) (Some 8%nat) (Some 9%nat) None None.

(** The proxy command ["corkscrew", "proxy", "8080"], which holds no
    token, as the middle of array 9. *)
Definition plain_template : slice := Slice 9 1 3.
Definition plain_world : World :=
  MkWorld [] {[ 9%nat := ["env"; "corkscrew"; "proxy"; "8080"; "end"] ]} [].
Definition plain_handle : goCryptoCommand :=
  MkCommand [1%nat] "alice" "host:2222" "echo hi" plain_template
            None None None None None.

(** A handle on the template ["nc", "%h", "%p", "%r"]. *)
Definition ncr_handle : goCryptoCommand :=
  MkCommand [1%nat] "alice" "host:2222" "echo hi" ncr_template
            None None None None None.

(** A commander's proxy commands, the second of which fails in the
    shell [false_fails]. *)
Definition three_commands (_ : unit) : list string :=
  ["true"; "false"; "echo never"].

End MoreExamples.

Import MoreExamples.

(* ================================================================== *)
(** * Facts about the string functions *)
(* ================================================================== *)

Section StringFacts.

Lemma take_str_app (u x : string) : take_str (String.length u) (u +:+ x) = u.
Proof. induction u as [|c u IH]; simpl; [by destruct x|by rewrite IH]. Qed.

Lemma drop_str_skip (u x : string) (c : ascii) :
  drop_str (String.length u + 1) (u +:+ String c x) = x.
Proof. induction u as [|b u IH]; simpl; [done|by rewrite IH]. Qed.

Lemma Index_byte (s : string) (c : ascii) :
  Index s (String c "") = IndexByte s c.
Proof.
  induction s as [|b s IH]; [done|].
  cbn [Index IndexByte HasPrefix].
  rewrite andb_true_r, (Ascii.eqb_sym c b).
  destruct (Ascii.eqb b c); [done|]. by rewrite IH.
Qed.

Lemma IndexByte_app_first (u x : string) (c : ascii) :
  IndexByte u c = None →
  IndexByte (u +:+ String c x) c = Some (String.length u).
Proof.
  induction u as [|b u IH]; simpl.
  - intros _. by rewrite Ascii.eqb_refl.
  - destruct (Ascii.eqb b c); [done|].
    destruct (IndexByte u c) eqn:Hu; [done|]. intros _. by rewrite IH.
Qed.

End StringFacts.

(** C9. Splitting [user@hostname], where [user] and [hostname] are not
    empty and [user] holds no '@', gives back exactly [user] and
    [hostname]; splitting a string without '@' gives an empty user and
    the whole string as host. *)
Theorem splitUserHost_recovers :
  (∀ u h : string,
     u ≠ "" → h ≠ "" → IndexByte u "@" = None →
     splitUserHost (u +:+ "@" +:+ h) = (u, h)) ∧
  (∀ s : string, IndexByte s "@" = None → splitUserHost s = ("", s)).
Proof.
  split.
  - intros u h _ _ Hu. unfold splitUserHost, SplitN.
    rewrite Index_byte. change ("@" +:+ h) with (String "@" h).
    rewrite (IndexByte_app_first u h "@" Hu), take_str_app.
    by rewrite drop_str_skip.
  - intros s Hs. unfold splitUserHost, SplitN. by rewrite Index_byte, Hs.
Qed.

Lemma splitUserHost_recovers_witness :
  splitUserHost "alice@host" = ("alice", "host") ∧
  splitUserHost "host" = ("", "host").
Proof.
  split.
  - apply (proj1 splitUserHost_recovers "alice" "host"); [done|done|reflexivity].
  - apply (proj2 splitUserHost_recovers "host"). reflexivity.
Defined.

(* ================================================================== *)
(** * Facts about slices *)
(* ================================================================== *)

Section SliceFacts.

Context (f : string → string) (sl : slice).

Lemma rewritten_step (a : list string) (n : nat) (x : string) :
  a !! (s_off sl + n)%nat = Some x →
  <[(s_off sl + n)%nat := f x]> (rewritten f sl a n) = rewritten f sl a (S n).
Proof.
  intros Hx. unfold rewritten.
  assert (Hlen : (s_off sl + n < length a)%nat) by by eapply lookup_lt_Some.
  rewrite insert_app_r_alt by (rewrite length_take; lia).
  rewrite length_take, Nat.min_l by lia.
  rewrite insert_app_r_alt by (rewrite length_fmap, length_take, length_drop; lia).
  rewrite length_fmap, length_take, length_drop, Nat.min_l by lia.
  replace (s_off sl + n - s_off sl - n)%nat with 0%nat by lia.
  rewrite (drop_S a x (s_off sl + n)) by done. simpl.
  rewrite (take_S_r _ n x) by (by rewrite lookup_drop).
  rewrite fmap_app. simpl. rewrite <- app_assoc. simpl.
  by rewrite Nat.add_succ_r.
Qed.

Lemma rewritten_lookup (a : list string) (n i : nat) :
  (s_off sl + n ≤ length a)%nat →
  rewritten f sl a n !! (s_off sl + i)%nat =
    if decide (i < n)%nat then f <$> a !! (s_off sl + i)%nat
    else a !! (s_off sl + i)%nat.
Proof.
  intros Hn. unfold rewritten.
  rewrite lookup_app_r by (rewrite length_take; lia).
  rewrite length_take, Nat.min_l by lia.
  replace (s_off sl + i - s_off sl)%nat with i by lia.
  case_decide.
  - rewrite lookup_app_l by (rewrite length_fmap, length_take, length_drop; lia).
    by rewrite list_lookup_fmap, lookup_take_lt, lookup_drop by lia.
  - rewrite lookup_app_r by (rewrite length_fmap, length_take, length_drop; lia).
    rewrite length_fmap, length_take, length_drop, Nat.min_l by lia.
    rewrite lookup_drop. f_equal. lia.
Qed.

(** Rewriting the elements one by one, as the loop does, rewrites the
    window and nothing else. *)
Lemma rewrite_rounds (h : heap) (a : list string) (n : nat) :
  h !! s_arr sl = Some a →
  (s_off sl + n ≤ length a)%nat →
  foldl (λ h i, slice_set h sl i (f (slice_get h sl i))) h (seq 0 n)
  = <[s_arr sl := rewritten f sl a n]> h.
Proof.
  intros Ha. induction n as [|n IH]; intros Hn.
  - simpl. unfold rewritten. rewrite Nat.add_0_r. simpl.
    by rewrite take_drop, insert_id.
  - rewrite seq_S, foldl_app. simpl. rewrite IH by lia.
    destruct (lookup_lt_is_Some_2 a (s_off sl + n)) as [x Hx]; [lia|].
    unfold slice_get, slice_set. rewrite lookup_insert_eq. simpl.
    rewrite rewritten_lookup by lia. rewrite decide_False by lia.
    rewrite Hx. simpl.
    rewrite alter_insert_eq. by rewrite rewritten_step.
Qed.

Lemma slice_elems_rewritten (h : heap) (a : list string) :
  h !! s_arr sl = Some a →
  (s_off sl + s_len sl ≤ length a)%nat →
  slice_elems (<[s_arr sl := rewritten f sl a (s_len sl)]> h) sl
  = f <$> slice_elems h sl.
Proof.
  intros Ha Hlen. unfold slice_elems.
  rewrite <- list_fmap_compose. apply list_fmap_ext.
  intros i j Hj. apply lookup_seq in Hj as [-> Hj]. simpl.
  unfold slice_get. rewrite lookup_insert_eq, Ha. simpl.
  rewrite rewritten_lookup, decide_True by lia.
  by destruct (a !! (s_off sl + i)%nat) eqn:Hx;
    [|apply lookup_ge_None in Hx; lia].
Qed.

End SliceFacts.

(** The loop of [sshDialWithProxy] leaves, in each element of the
    template, the element with its tokens substituted. *)
Lemma substitute_in_place_elems (host port usr : string) (sl : slice) (h : heap) :
  slice_wf h sl →
  slice_elems (substitute_in_place host port usr sl h) sl
  = substitute host port usr <$> slice_elems h sl.
Proof.
  intros [H0|(a & Ha & Hlen)]; unfold substitute_in_place.
  - unfold slice_elems. by rewrite H0.
  - rewrite (rewrite_rounds _ sl h a) by done.
    by apply slice_elems_rewritten.
Qed.

(* ================================================================== *)
(** * Running the client symbolically *)
(* ================================================================== *)

Lemma since_app (w : World) (evs : list event) (h : heap) (k : list Signer) :
  since w (MkWorld (w_log w ++ evs) h k) = evs.
Proof. unfold since. simpl. by rewrite drop_app_length. Qed.

Lemma since_refl (w : World) : since w w = [].
Proof. unfold since. by rewrite drop_all. Qed.

(** Unfold the methods down to the external calls. *)
Ltac run :=
  unfold Start, Wait, Close, Kill, StdinPipe, StdoutPipe, StderrPipe,
    ensureSession, dialSession, sshDialWithProxy, sshDial, NewClientConn,
    user_Current, call, emit, fresh, get_heap, modify_heap, log_event,
    mbind, M_bind, mret, M_ret in *; simpl in *.

(** Decide one branch of the code: a test, or the answer to a call. *)
Ltac step :=
  match goal with
  | |- context [decide ?P] => destruct (decide P)
  | |- context [outcome ?E ?l] => destruct (outcome E l) eqn:?
  | |- context [proxy_target ?a] => destruct (proxy_target a) as [??] eqn:?
  end; simpl in *.

(** Bring the logs to the form [w_log w ++ [e1; ...; en]]. *)
Ltac norm :=
  rewrite <- ?app_assoc in *; simpl in *;
  rewrite ?since_app, ?since_refl in *.

(** All the ways a known list of events is [pre ++ ev :: post]. *)
Ltac positions H pre :=
  repeat (destruct pre as [|? pre]; simpl in H;
          [injection H as <- <- || injection H as <- || discriminate H|
           (injection H as <- H || discriminate H)]).

(* ================================================================== *)
(** * Session establishment *)
(* ================================================================== *)

Section Establishment.

Context (E : Env).

(** With a session in hand nothing is done. *)
Lemma ensureSession_live (c : goCryptoCommand) (s : Session) (w : World) :
  sess c = Some s → ensureSession E c w = ((c, inr s), w).
Proof. intros Hs. unfold ensureSession. by rewrite Hs. Qed.

(** Without keys nothing is done either. *)
Lemma ensureSession_no_keys (c : goCryptoCommand) (w : World) :
  sess c = None → signers c = [] →
  ensureSession E c w = ((c, inl errNoKeys), w).
Proof. intros Hs Hk. unfold ensureSession. by rewrite Hs, Hk. Qed.

(** Session establishment only fills in the user name and the two
    session fields. *)
Lemma ensureSession_frame (c : goCryptoCommand) (w : World) :
  let c' := (ensureSession E c w).1.1 in
  signers c' = signers c ∧ addr c' = addr c ∧ command c' = command c ∧
  proxyCommand c' = proxyCommand c ∧ w_keys (ensureSession E c w).2 = w_keys w.
Proof.
  run. destruct (sess c); simpl; [done|]. by repeat step.
Qed.

(** It keeps the session fields together, and a session it made comes
    with keys. *)
Lemma ensureSession_ok (c : goCryptoCommand) (w : World) :
  handle_ok c → handle_ok (ensureSession E c w).1.1.
Proof.
  unfold handle_ok. run. destruct (sess c) eqn:Hs; simpl.
  { by rewrite Hs. }
  intros Hc. repeat step; simpl; by rewrite ?Hs.
Qed.

(** What the session handed back is what the handle now holds. *)
Lemma ensureSession_result (c : goCryptoCommand) (w : World) (s : Session) :
  handle_ok c →
  (ensureSession E c w).1.2 = inr s →
  sess (ensureSession E c w).1.1 = Some s ∧
  client (ensureSession E c w).1.1 = Some (sess_conn s).
Proof.
  unfold handle_ok. run. destruct (sess c) eqn:Hs; simpl.
  { intros Hc [= <-]. by rewrite Hs. }
  intros Hc. repeat step; simpl; intros [= <-]; done.
Qed.

End Establishment.

(* ================================================================== *)
(** * Handles through their life *)
(* ================================================================== *)

(** Unfold a method down to [ensureSession] and the external calls. *)
Ltac run_method :=
  unfold run_op, Start, Wait, Close, Kill, StdinPipe, StdoutPipe, StderrPipe,
    SetStdio, call, log_event, mbind, M_bind, mret, M_ret; simpl.

Section Handles.

Context (CommandString : list string → string) (E : Env).

(** The fields set at construction stay as they are. *)
Lemma run_op_frame (o : op) (c : goCryptoCommand) (w : World) :
  let c' := (run_op E o c w).1 in
  signers c' = signers c ∧ addr c' = addr c ∧ command c' = command c ∧
  proxyCommand c' = proxyCommand c.
Proof.
  pose proof (ensureSession_frame E c w) as Hf.
  destruct o; run_method;
    try (destruct (ensureSession E c w) as [[c1 [e|s]] w1]; simpl in *;
         repeat step; tauto);
    destruct (sess c); simpl; try done;
    destruct (client c); simpl; repeat step; done.
Qed.

Lemma run_ops_frame (os : list op) (c : goCryptoCommand) (w : World) :
  let c' := (run_ops E os c w).1 in
  signers c' = signers c ∧ addr c' = addr c ∧ command c' = command c ∧
  proxyCommand c' = proxyCommand c.
Proof.
  revert c w. induction os as [|o os IH]; intros c w; [done|].
  simpl. unfold mbind, M_bind.
  pose proof (run_op_frame o c w) as Ho.
  destruct (run_op E o c w) as [c1 w1]. simpl in *.
  destruct (IH c1 w1) as (?&?&?&?), Ho as (?&?&?&?).
  repeat split; congruence.
Qed.

(** Every call keeps the session fields together. *)
Lemma run_op_ok (o : op) (c : goCryptoCommand) (w : World) :
  handle_ok c → handle_ok (run_op E o c w).1.
Proof.
  intros Hc. pose proof (ensureSession_ok E c w Hc) as Hok.
  destruct o; run_method;
    try (destruct (ensureSession E c w) as [[c1 [e|s]] w1]; simpl in *;
         repeat step; done);
    unfold handle_ok in *;
    destruct (sess c) eqn:Hs; simpl; rewrite ?Hs; try done;
    rewrite ?Hc; simpl; done.
Qed.

Lemma run_ops_ok (os : list op) (c : goCryptoCommand) (w : World) :
  handle_ok c → handle_ok (run_ops E os c w).1.
Proof.
  revert c w. induction os as [|o os IH]; intros c w Hc; [done|].
  simpl. unfold mbind, M_bind.
  pose proof (run_op_ok o c w Hc) as Ho.
  destruct (run_op E o c w) as [c1 w1]. by apply IH.
Qed.

(** A handle without keys and without a session stays so. *)
Lemma run_op_no_keys (o : op) (c : goCryptoCommand) (w : World) :
  signers c = [] → sess c = None →
  signers (run_op E o c w).1 = [] ∧ sess (run_op E o c w).1 = None.
Proof.
  intros Hk Hs. pose proof (ensureSession_no_keys E c w Hs Hk) as He.
  destruct o; run_method; rewrite ?He, ?Hs; simpl; done.
Qed.

Lemma run_ops_no_keys (os : list op) (c : goCryptoCommand) (w : World) :
  signers c = [] → sess c = None →
  signers (run_ops E os c w).1 = [] ∧ sess (run_ops E os c w).1 = None.
Proof.
  revert c w. induction os as [|o os IH]; intros c w Hk Hs; [done|].
  simpl. unfold mbind, M_bind.
  destruct (run_op_no_keys o c w Hk Hs) as [Hk1 Hs1].
  destruct (run_op E o c w) as [c1 w1]. by apply IH.
Qed.

(** What [Command] builds. *)
Lemma Command_fields (cl : GoCryptoClient) (host : string)
    (argv : list string) (options : option Options) (w : World) :
  let c := (Command CommandString cl host argv options w).1 in
  signers c = (if decide (length (client_signers cl) = 0)
               then w_keys w else client_signers cl) ∧
  command c = CommandString argv ∧
  proxyCommand c = match options with
                   | Some o => opt_proxyCommand o
                   | None => nil_slice
                   end ∧
  sess c = None ∧ client c = None ∧
  user c = (splitUserHost host).1 ∧
  addr c = JoinHostPort (splitUserHost host).2
             (Itoa match options with
                   | Some o => if decide (opt_port o ≠ 0%Z) then opt_port o
                               else sshDefaultPort
                   | None => sshDefaultPort
                   end) ∧
  w_heap (Command CommandString cl host argv options w).2 = w_heap w.
Proof.
  unfold Command, privateKeys, emit, mbind, M_bind, mret, M_ret.
  destruct (splitUserHost host) as [u h].
  by destruct (decide (length (client_signers cl) = 0)).
Qed.

(** So every handle a caller can hold keeps its session fields
    together. *)
Lemma reachable_ok (cl : GoCryptoClient) (host : string)
    (argv : list string) (options : option Options) (w0 w : World)
    (os : list op) :
  handle_ok (run_ops E os (Command CommandString cl host argv options w0).1 w).1.
Proof.
  apply run_ops_ok. unfold handle_ok.
  by destruct (Command_fields cl host argv options w0) as (_ & _ & _ & -> & -> & _).
Qed.

End Handles.

(* ================================================================== *)
(** * Properties of the life of a handle *)
(* ================================================================== *)

(** C2. A handle made by a client without signers while the fallback
    key store is empty, whatever was called on it since: [Start],
    [StdinPipe], [StdoutPipe] and [StderrPipe] each return the "no
    private keys available" error and make no external call at all
    (the world, log included, is as before), so nothing is dialled. *)
Theorem no_credentials_no_io (CommandString : list string → string) (E : Env)
    (cl : GoCryptoClient) (host : string) (argv : list string)
    (options : option Options) (w0 w1 w : World) (os : list op) :
  client_signers cl = [] →
  w_keys w0 = [] →
  let c := (run_ops E os (Command CommandString cl host argv options w0).1 w1).1 in
  Start E c w = ((c, Some errNoKeys), w) ∧
  StdinPipe E c w = ((c, (PipeNil, None, Some errNoKeys)), w) ∧
  StdoutPipe E c w = ((c, (PipeNil, None, Some errNoKeys)), w) ∧
  StderrPipe E c w = ((c, (PipeNil, None, Some errNoKeys)), w).
Proof.
  intros Hcl Hw0 c.
  destruct (Command_fields CommandString cl host argv options w0)
    as (Hk & _ & _ & Hs & _).
  rewrite Hcl in Hk. simpl in Hk. rewrite Hw0 in Hk.
  destruct (run_ops_no_keys E os _ w1 Hk Hs) as [Hk' Hs'].
  fold c in Hk', Hs'.
  pose proof (ensureSession_no_keys E c w Hs' Hk') as He.
  by run_method; rewrite He.
Qed.

Lemma no_credentials_no_io_witness :
  let c := (run_ops all_succeed [OpSetStdio (Some 1%nat) None None; OpClose]
              (Command joined no_keys "alice@host" ["echo"; "hi"] None nc_world).1
              nc_world).1 in
  Start all_succeed c nc_world = ((c, Some errNoKeys), nc_world).
Proof.
  exact (proj1 (no_credentials_no_io joined all_succeed no_keys "alice@host"
                  ["echo"; "hi"] None nc_world nc_world nc_world
                  [OpSetStdio (Some 1%nat) None None; OpClose]
                  eq_refl eq_refl)).
Defined.

(** C6. On a handle with a live session, [Wait] waits, then closes the
    session and then the connection under it, whatever the wait
    returned; it returns the error of the wait, and the handle is left
    without session and without client. *)
Theorem Wait_closes (E : Env) (c : goCryptoCommand) (s : Session) (w : World) :
  handle_ok c →
  sess c = Some s →
  ∃ (c' : goCryptoCommand) (w' : World),
    Wait E c w =
      ((c', Returns (Foreign <$> outcome E (w_log w ++ [EvSessWait (sess_id s)]))), w') ∧
    since w w' = [EvSessWait (sess_id s); EvSessClose (sess_id s);
                  EvConnClose (sess_conn s)] ∧
    sess c' = None ∧ client c' = None.
Proof.
  unfold handle_ok. intros Hc Hs. rewrite Hs in Hc.
  run_method. rewrite Hs, Hc. simpl.
  eexists _, _. split; [reflexivity|].
  rewrite <- !app_assoc. simpl. by rewrite since_app.
Qed.

Lemma Wait_closes_witness :
  ∃ (c' : goCryptoCommand) (w' : World),
    Wait remote_fails live_handle nc_world =
      ((c', Returns (Some (Foreign "Process exited with status 1"))), w') ∧
    since nc_world w' = [EvSessWait 4; EvSessClose 4; EvConnClose (TCPConn 1)] ∧
    sess c' = None ∧ client c' = None.
Proof.
  exact (Wait_closes remote_fails live_handle live_session nc_world
           eq_refl eq_refl).
Defined.

(** C7. On a handle without a live session, [Close] returns no error,
    [Wait] and [Kill] return the "command has not been started" error,
    and none of the three changes the handle or calls anything.  A
    handle just made has no live session, and neither has one that
    [Close] or [Wait] returned from: so [Close] can be repeated, and
    called after [Wait]. *)
Theorem no_session_calls (CommandString : list string → string) (E : Env) :
  (∀ (c : goCryptoCommand) (w : World),
     sess c = None →
     Close E c w = ((c, Returns None), w) ∧
     Wait E c w = ((c, Returns (Some errNotStarted)), w) ∧
     Kill E c w = ((c, Some errNotStarted), w)) ∧
  (∀ cl host argv options w,
     sess (Command CommandString cl host argv options w).1 = None) ∧
  (∀ (c : goCryptoCommand) (w : World),
     handle_ok c →
     sess (Close E c w).1.1 = None ∧ sess (Wait E c w).1.1 = None).
Proof.
  split; [|split].
  - intros c w Hs. run_method. by rewrite Hs.
  - intros. by destruct (Command_fields CommandString cl host argv options w)
      as (_ & _ & _ & Hs & _).
  - unfold handle_ok. intros c w Hc. run_method.
    destruct (sess c) eqn:Hs; simpl; [|done]. by rewrite Hc.
Qed.

Lemma no_session_calls_witness :
  (Close all_succeed idle_handle nc_world = ((idle_handle, Returns None), nc_world) ∧
   Wait all_succeed idle_handle nc_world
     = ((idle_handle, Returns (Some errNotStarted)), nc_world) ∧
   Kill all_succeed idle_handle nc_world
     = ((idle_handle, Some errNotStarted), nc_world)) ∧
  (sess (Close all_succeed live_handle nc_world).1.1 = None ∧
   sess (Wait all_succeed live_handle nc_world).1.1 = None).
Proof.
  split.
  - exact (proj1 (no_session_calls joined all_succeed) idle_handle nc_world eq_refl).
  - exact (proj2 (proj2 (no_session_calls joined all_succeed))
             live_handle nc_world eq_refl).
Defined.



(* ================================================================== *)
(** * Properties of construction and session establishment *)
(* ================================================================== *)

(** C5, as the code has it.  [Command] always returns a handle, and
    calls neither the network, a process nor the account database.
    The handle holds no session, the user and host split from [host],
    the address made of the host and the port of the options (22 when
    there are no options or the port is 0), the command string and the
    template of the options.  When the client has no signers, [Command]
    itself reads the process-wide key store and keeps what it found;
    session establishment never reads the store.  [Command] also writes
    one trace line. *)
Theorem Command_construction (CommandString : list string → string)
    (cl : GoCryptoClient) (host : string) (argv : list string)
    (options : option Options) (w : World) :
  let c := (Command CommandString cl host argv options w).1 in
  let w' := (Command CommandString cl host argv options w).2 in
  let port := match options with
              | Some o => if decide (opt_port o ≠ 0%Z) then opt_port o else 22%Z
              | None => 22%Z
              end in
  since w w' =
    (if decide (length (client_signers cl) = 0) then [EvPrivateKeys] else [])
    ++ [EvTracef (LogRunning (splitUserHost host).1 (splitUserHost host).2
                             port (CommandString argv))] ∧
  Forall (λ ev, is_io ev = false) (since w w') ∧
  w_heap w' = w_heap w ∧ w_keys w' = w_keys w ∧
  signers c = (if decide (length (client_signers cl) = 0)
               then w_keys w else client_signers cl) ∧
  user c = (splitUserHost host).1 ∧
  addr c = JoinHostPort (splitUserHost host).2 (Itoa port) ∧
  command c = CommandString argv ∧
  proxyCommand c = match options with
                   | Some o => opt_proxyCommand o
                   | None => nil_slice
                   end ∧
  sess c = None ∧ client c = None ∧
  (∀ (E : Env) (c1 : goCryptoCommand) (w1 : World),
     EvPrivateKeys ∉ since w1 (ensureSession E c1 w1).2).
Proof.
  unfold Command, privateKeys, emit, log_event, mbind, M_bind, mret, M_ret.
  destruct (splitUserHost host) as [u h]. simpl.
  repeat split; try (by destruct (decide (length (client_signers cl) = 0))).
  - destruct (decide (length (client_signers cl) = 0)); simpl;
      rewrite <- ?app_assoc; by rewrite since_app.
  - destruct (decide (length (client_signers cl) = 0)); simpl;
      rewrite <- ?app_assoc; rewrite since_app; by repeat constructor.
  - intros E c1 w1. run. destruct (sess c1); simpl.
    { rewrite since_refl. apply not_elem_of_nil. }
    repeat step; norm; rewrite ?not_elem_of_cons;
      repeat split; (discriminate || apply not_elem_of_nil).
Qed.

(** C5 as stated fails: a client without signers reads the process-wide
    key store inside [Command], and what it found there is final: a
    key stored afterwards does not reach the handle. *)
Lemma Command_reads_key_store :
  let c := (Command joined no_keys "alice@host" ["echo"; "hi"] None nc_world).1 in
  let w' := (Command joined no_keys "alice@host" ["echo"; "hi"] None nc_world).2 in
  EvPrivateKeys ∈ since nc_world w' ∧
  w_keys nc_world_with_key ≠ [] ∧
  Start all_succeed c nc_world_with_key = ((c, Some errNoKeys), nc_world_with_key).
Proof.
  repeat split.
  - vm_compute. apply elem_of_cons. by left.
  - discriminate.
Qed.

(** C3, as the code has it.  When the handshake on a connection, or
    the opening of a session on the client over it, fails during
    session establishment, the error of that call is returned as it
    is, and the one thing done after the failing call is closing that
    connection: nothing is tried again.  (After a failed handshake it
    is the SSH library that closes the connection it was given; after
    a refused session it is [ensureSession], by [client.Close()].) *)
Theorem failed_attempt_cleanup (E : Env) (c : goCryptoCommand) (w : World)
    (pre post : list event) (ev : event) (cn : conn) (msg : string) :
  since w (ensureSession E c w).2 = pre ++ ev :: post →
  attempt_conn ev = Some cn →
  outcome E (w_log w ++ pre ++ [ev]) = Some msg →
  (ensureSession E c w).1.2 = inl (Foreign msg) ∧ post = [EvConnClose cn].
Proof.
  intros Hlog Hev Hfail. run.
  destruct (sess c) eqn:Hs; simpl in *.
  { rewrite since_refl in Hlog. by destruct pre. }
  repeat step; norm.
  all: try by destruct pre.
  all: positions Hlog pre; simpl in Hev; simplify_eq; norm.
  all: split; congruence.
Qed.

Lemma failed_attempt_cleanup_witness :
  let c := (Command joined one_key "alice@host" ["echo"; "hi"] None nc_world).1 in
  since nc_world (ensureSession session_refused c nc_world).2
    = [EvDial "host:22"; EvHandshake (TCPConn 0) "host:22" "alice" [1%nat];
       EvNewSession (TCPConn 0); EvConnClose (TCPConn 0)] ∧
  (ensureSession session_refused c nc_world).1.2
    = inl (Foreign "ssh: rejected: administratively prohibited").
Proof.
  intros c. split; [reflexivity|].
  exact (proj1 (failed_attempt_cleanup session_refused c nc_world
           [EvDial "host:22"; EvHandshake (TCPConn 0) "host:22" "alice" [1%nat]]
           [EvConnClose (TCPConn 0)] (EvNewSession (TCPConn 0)) (TCPConn 0)
           "ssh: rejected: administratively prohibited"
           eq_refl eq_refl eq_refl)).
Defined.

(** C3 as stated fails on a proxied stream: when the handshake fails,
    the client end of the pipe is closed, but the server end, which
    [net.Pipe()] opened with it and the proxy process was given, is
    closed by nobody before the error is returned. *)
Lemma proxy_pipe_server_end_left_open :
  let c := (Command joined one_key "db" ["ls"] (Some nc_options) nc_world).1 in
  let w := (Command joined one_key "db" ["ls"] (Some nc_options) nc_world).2 in
  let r := ensureSession handshake_fails c w in
  r.1.2 = inl (Foreign "ssh: handshake failed") ∧
  pipe_ends_opened (since w r.2) = [PipeClient 2; PipeServer 2] ∧
  conns_closed (since w r.2) = [PipeClient 2] ∧
  ¬ (∀ cn, cn ∈ pipe_ends_opened (since w r.2) → cn ∈ conns_closed (since w r.2)).
Proof.
  intros c w r.
  assert (Ho : pipe_ends_opened (since w r.2) = [PipeClient 2; PipeServer 2])
    by by vm_compute.
  assert (Hc : conns_closed (since w r.2) = [PipeClient 2]) by by vm_compute.
  repeat split; try done.
  intros Hall. specialize (Hall (PipeServer 2)).
  rewrite Ho, Hc in Hall.
  apply list_elem_of_singleton in Hall; [done|].
  apply elem_of_cons. right. apply elem_of_cons. by left.
Qed.

(* ================================================================== *)
(** * Properties of the proxy command *)
(* ================================================================== *)

Section ProxyCommand.

Context (E : Env).

(** What a proxied dial does to the template and which process it
    starts. *)
Lemma sshDialWithProxy_effect (address : string) (proxy : slice)
    (config : ClientConfig) (w : World) :
  s_len proxy ≠ 0 →
  let w' := (sshDialWithProxy E address proxy config w).2 in
  let h' := substitute_in_place (proxy_target address).1 (proxy_target address).2
              (cfg_User config) proxy (w_heap w) in
  w_heap w' = h' ∧ spawned (since w w') = [slice_elems h' proxy].
Proof.
  intros Hlen. run. destruct (decide (s_len proxy = 0)); [done|].
  destruct (proxy_target address) as [host port]. simpl.
  repeat step; by norm.
Qed.

Lemma sshDial_effect (address : string) (config : ClientConfig) (w : World) :
  let w' := (sshDial E address config w).2 in
  w_heap w' = w_heap w ∧ spawned (since w w') = [].
Proof. run. repeat step; by norm. Qed.

(** Session establishment either leaves the arrays alone and starts
    no process, or goes through a proxied dial. *)
Lemma ensureSession_effect (c : goCryptoCommand) (w : World) :
  let w' := (ensureSession E c w).2 in
  let h' := substitute_in_place (proxy_target (addr c)).1 (proxy_target (addr c)).2
              (config_user E c w) (proxyCommand c) (w_heap w) in
  (w_heap w' = w_heap w ∧ spawned (since w w') = []) ∨
  (sess c = None ∧ s_len (proxyCommand c) ≠ 0 ∧
   w_heap w' = h' ∧ spawned (since w w') = [slice_elems h' (proxyCommand c)]).
Proof.
  unfold config_user. run. destruct (sess c) eqn:Hs; simpl.
  { left. by rewrite since_refl. }
  repeat step; norm; (by left) || (by right).
Qed.

(** It goes through the proxied dial whenever it reaches the dial and
    there is a proxy command. *)
Lemma ensureSession_spawns (c : goCryptoCommand) (w : World) :
  reaches_dial E c w →
  s_len (proxyCommand c) ≠ 0 →
  let w' := (ensureSession E c w).2 in
  let h' := substitute_in_place (proxy_target (addr c)).1 (proxy_target (addr c)).2
              (config_user E c w) (proxyCommand c) (w_heap w) in
  w_heap w' = h' ∧ spawned (since w w') = [slice_elems h' (proxyCommand c)].
Proof.
  unfold reaches_dial, config_user. intros (Hs & Hk & Hu) Hl. run. rewrite Hs.
  repeat step; norm; try done.
  all: try by destruct (signers c).
  all: by (match goal with H : user _ = "" |- _ => specialize (Hu H) end;
           congruence).
Qed.

End ProxyCommand.

Section Template.

Context (CommandString : list string → string) (E : Env).

(** A call on a handle changes the arrays exactly as the session
    establishment it begins with does, and not at all when it begins
    with none. *)
Lemma run_op_heap (o : op) (c : goCryptoCommand) (w : World) :
  w_heap (run_op E o c w).2
  = if establishes o then w_heap (ensureSession E c w).2 else w_heap w.
Proof.
  destruct o; run_method;
    try (destruct (ensureSession E c w) as [[c1 [e|s]] w1]; simpl;
         repeat step; done);
    destruct (sess c); simpl; try done;
    destruct (client c); simpl; repeat step; done.
Qed.

(** Session establishment that does not reach the dial changes no
    array. *)
Lemma ensureSession_no_dial (c : goCryptoCommand) (w : World) :
  ¬ reaches_dial E c w → w_heap (ensureSession E c w).2 = w_heap w.
Proof.
  unfold reaches_dial. intros Hno. run. destruct (sess c) eqn:Hs; simpl; [done|].
  repeat step; norm; try done; exfalso; apply Hno;
    (split; [done|]); (split; [by destruct (signers c)|]); done.
Qed.

(** C10. When the address of a proxied dial cannot be split into host
    and port, every argument of the template has %h replaced by the
    whole address and %r by the user of the configuration, and is not
    searched for %p at all; the proxy process is started with these
    arguments. *)
Theorem unsplit_address_substitution (address : string) (proxy : slice)
    (config : ClientConfig) (w : World) (why : string) :
  SplitHostPort address = inl why →
  s_len proxy ≠ 0 →
  slice_wf (w_heap w) proxy →
  let w' := (sshDialWithProxy E address proxy config w).2 in
  let argv := (λ arg, Replace (Replace arg "%h" address) "%r" (cfg_User config))
                <$> slice_elems (w_heap w) proxy in
  slice_elems (w_heap w') proxy = argv ∧ spawned (since w w') = [argv].
Proof.
  intros Hsplit Hlen Hwf.
  destruct (sshDialWithProxy_effect E address proxy config w Hlen) as [Hh Hsp].
  simpl. rewrite Hsp, Hh.
  unfold proxy_target. rewrite Hsplit. simpl.
  by rewrite substitute_in_place_elems.
Qed.

(** Session establishment on the handle [Command] makes for [host]
    with the options [o], whose port option [Hport] gives: the address
    is computed, and the process started is read off the template. *)
Ltac establish_at CS E cl host argv o w Hport Hwf Hel Hlen :=
  let Hp := fresh "Hp" in
  let Ha := fresh "Ha" in
  let Hh := fresh "Hh" in
  let Heff := fresh "Heff" in
  let Hsp := fresh "Hsp" in
  let Hr := fresh "Hr" in
  destruct (Command_fields CS cl host argv (Some o) w)
    as (_ & _ & Hp & _ & _ & _ & Ha & Hh);
  pose proof (ensureSession_effect E (Command CS cl host argv (Some o) w).1
                (Command CS cl host argv (Some o) w).2) as Heff;
  pose proof (ensureSession_spawns E (Command CS cl host argv (Some o) w).1
                (Command CS cl host argv (Some o) w).2) as Hsp;
  rewrite Hport in Ha;
  match type of Ha with
  | _ = ?a => let a' := eval vm_compute in a in
              change (addr (Command CS cl host argv (Some o) w).1 = a') in Ha
  end;
  simpl in Heff, Hsp; rewrite Hp, Ha, Hh in Heff, Hsp;
  rewrite substitute_in_place_elems, Hel in Heff, Hsp by done;
  split;
  [destruct Heff as [[_ ->]|(_ & _ & _ & ->)]; [by left|by right]
  |intros Hr; by destruct (Hsp Hr Hlen) as [_ ->]].

(** C1, as the code has it.  With the template ["nc", "%h", "%p"]: for
    the host argument "db" and the port option 5432, session
    establishment starts no process other than ["nc", "db", "5432"], and
    starts that one whenever it reaches the dial; %h is the host of the
    target address and %p its port, and the port is the one of the
    options (22 by default), never a part of the host argument: for
    the host argument "db:5432" without a port option the process is
    ["nc", "db:5432", "22"]. *)
Theorem proxy_argv_port_from_options (cl : GoCryptoClient)
    (argv : list string) (o : Options) (w : World) :
  slice_wf (w_heap w) (opt_proxyCommand o) →
  slice_elems (w_heap w) (opt_proxyCommand o) = ["nc"; "%h"; "%p"] →
  (opt_port o = 5432%Z →
   let r := Command CommandString cl "db" argv (Some o) w in
   let evs := since r.2 (ensureSession E r.1 r.2).2 in
   (spawned evs = [] ∨ spawned evs = [["nc"; "db"; "5432"]]) ∧
   (reaches_dial E r.1 r.2 → spawned evs = [["nc"; "db"; "5432"]])) ∧
  (opt_port o = 0%Z →
   let r := Command CommandString cl "db:5432" argv (Some o) w in
   let evs := since r.2 (ensureSession E r.1 r.2).2 in
   (spawned evs = [] ∨ spawned evs = [["nc"; "db:5432"; "22"]]) ∧
   (reaches_dial E r.1 r.2 → spawned evs = [["nc"; "db:5432"; "22"]])).
Proof.
  intros Hwf Hel.
  assert (Hlen : s_len (opt_proxyCommand o) ≠ 0).
  { intros H0. unfold slice_elems in Hel. by rewrite H0 in Hel. }
  split; intros Hport r evs; subst r evs.
  - establish_at CommandString E cl "db" argv o w Hport Hwf Hel Hlen.
  - establish_at CommandString E cl "db:5432" argv o w Hport Hwf Hel Hlen.
Qed.

(** C4, as the code has it.  [Command] changes no array and hands the
    template of the options to the handle as it is, the handle and the
    options sharing its elements.  [Close], [Wait], [Kill] and
    [SetStdio] change no array; nor does any call on a handle that
    holds a session, any call whose session establishment stops before
    the dial, or any call on a handle without proxy command.  A call
    that establishes the session ([Start] or a pipe method), reaches
    the dial and has a proxy command overwrites each element of the
    shared template with the element after substitution, for the
    options as for the handle. *)
Theorem template_sharing :
  (∀ cl host argv o w,
     proxyCommand (Command CommandString cl host argv (Some o) w).1
       = opt_proxyCommand o ∧
     w_heap (Command CommandString cl host argv (Some o) w).2 = w_heap w) ∧
  (∀ (o : op) (c : goCryptoCommand) (w : World),
     let w' := (run_op E o c w).2 in
     let host := (proxy_target (addr c)).1 in
     let port := (proxy_target (addr c)).2 in
     (establishes o = false ∨ sess c ≠ None ∨ ¬ reaches_dial E c w
      ∨ s_len (proxyCommand c) = 0 →
      w_heap w' = w_heap w) ∧
     (establishes o = true → reaches_dial E c w → s_len (proxyCommand c) ≠ 0 →
      w_heap w' = substitute_in_place host port (config_user E c w)
                    (proxyCommand c) (w_heap w) ∧
      (slice_wf (w_heap w) (proxyCommand c) →
       slice_elems (w_heap w') (proxyCommand c)
       = substitute host port (config_user E c w)
           <$> slice_elems (w_heap w) (proxyCommand c)))).
Proof.
  split.
  - intros. by destruct (Command_fields CommandString cl host argv (Some o) w)
      as (_ & _ & Hp & _ & _ & _ & _ & Hh).
  - intros o c w. simpl. rewrite run_op_heap. split.
    + intros Hcase. destruct (establishes o); [|done].
      destruct Hcase as [?|[Hs|[Hno|Hl]]]; [done| | |].
      * apply ensureSession_no_dial. by intros [? _].
      * by apply ensureSession_no_dial.
      * destruct (ensureSession_effect E c w) as [[Hh _]|(_ & Hl' & _)]; done.
    + intros -> Hr Hl.
      destruct (ensureSession_spawns E c w Hr Hl) as [Hh _].
      rewrite Hh. split; [done|].
      intros Hwf. by apply substitute_in_place_elems.
Qed.

End Template.

Lemma nc_template_wf : slice_wf (w_heap nc_world) nc_template.
Proof. right. eexists. split; [reflexivity|]. simpl. lia. Defined.

Lemma ncr_template_wf : slice_wf (w_heap ncr_world) ncr_template.
Proof. right. eexists. split; [reflexivity|]. simpl. lia. Defined.

Lemma unsplit_address_substitution_witness :
  let w' := (sshDialWithProxy all_succeed "[x:22" ncr_template
               (MkConfig "bob" [1%nat]) ncr_world).2 in
  SplitHostPort "[x:22" = inl "missing ']' in address" ∧
  slice_elems (w_heap w') ncr_template = ["nc"; "[x:22"; "%p"; "bob"] ∧
  spawned (since ncr_world w') = [["nc"; "[x:22"; "%p"; "bob"]].
Proof.
  split; [reflexivity|].
  exact (unsplit_address_substitution all_succeed "[x:22" ncr_template
           (MkConfig "bob" [1%nat]) ncr_world "missing ']' in address"
           eq_refl ltac:(discriminate) ncr_template_wf).
Defined.

Lemma proxy_argv_port_from_options_witness :
  let r := Command joined one_key "db" ["ls"] (Some nc_options_5432) nc_world in
  spawned (since r.2 (ensureSession all_succeed r.1 r.2).2) = [["nc"; "db"; "5432"]].
Proof.
  refine (proj2 (proj1 (proxy_argv_port_from_options joined all_succeed one_key
            ["ls"] nc_options_5432 nc_world nc_template_wf eq_refl) eq_refl) _).
  repeat split; discriminate.
Defined.

(** C1 as stated fails: for the host argument "db:5432" and no port
    option the proxy process is started with ["nc", "db:5432", "22"]. *)
Lemma proxy_argv_host_with_colon :
  let r := Command joined one_key "db:5432" ["ls"] (Some nc_options) nc_world in
  let evs := since r.2 (ensureSession all_succeed r.1 r.2).2 in
  addr r.1 = "[db:5432]:22" ∧
  spawned evs = [["nc"; "db:5432"; "22"]] ∧
  ¬ (∀ argv, argv ∈ spawned evs → argv = ["nc"; "db"; "5432"]).
Proof.
  intros r evs.
  assert (Hsp : spawned evs = [["nc"; "db:5432"; "22"]]) by by vm_compute.
  repeat split; try done.
  intros Hall. specialize (Hall ["nc"; "db:5432"; "22"]).
  rewrite Hsp in Hall. by specialize (Hall (list_elem_of_here _ _)).
Qed.

Lemma db_reaches_dial :
  reaches_dial all_succeed
    (Command joined one_key "db" ["ls"] (Some nc_options) nc_world).1
    (Command joined one_key "db" ["ls"] (Some nc_options) nc_world).2.
Proof. split; [reflexivity|]. split; [discriminate|]. intros _. reflexivity. Defined.

Lemma template_sharing_witness :
  let r := Command joined one_key "db" ["ls"] (Some nc_options) nc_world in
  slice_elems (w_heap r.2) nc_template = ["nc"; "%h"; "%p"] ∧
  slice_elems (w_heap (run_op all_succeed OpStart r.1 r.2).2) nc_template
    = ["nc"; "db"; "22"] ∧
  w_heap (run_op all_succeed OpClose r.1 r.2).2 = w_heap r.2 ∧
  w_heap (run_op all_succeed OpStart live_handle nc_world).2 = w_heap nc_world.
Proof.
  split; [reflexivity|]. split; [|split].
  - exact (proj2 (proj2 (proj2 (template_sharing joined all_succeed) OpStart
                           (Command joined one_key "db" ["ls"] (Some nc_options)
                              nc_world).1
                           (Command joined one_key "db" ["ls"] (Some nc_options)
                              nc_world).2)
                    eq_refl db_reaches_dial ltac:(discriminate))
             nc_template_wf).
  - exact (proj1 (proj2 (template_sharing joined all_succeed) OpClose
                    (Command joined one_key "db" ["ls"] (Some nc_options)
                       nc_world).1
                    (Command joined one_key "db" ["ls"] (Some nc_options)
                       nc_world).2)
             (or_introl eq_refl)).
  - apply (proj1 (proj2 (template_sharing joined all_succeed) OpStart
                    live_handle nc_world)).
    right. left. discriminate.
Defined.

(** C4 as stated fails: after [Start] through a proxy command, the
    template the caller put in the options reads ["nc", "db", "22"],
    and so does the one the handle captured. *)
Lemma template_overwritten :
  let r := Command joined one_key "db" ["ls"] (Some nc_options) nc_world in
  let w' := (Start all_succeed r.1 r.2).2 in
  slice_elems (w_heap r.2) (opt_proxyCommand nc_options) = ["nc"; "%h"; "%p"] ∧
  slice_elems (w_heap w') (opt_proxyCommand nc_options) = ["nc"; "db"; "22"] ∧
  slice_elems (w_heap w') (proxyCommand r.1) = ["nc"; "db"; "22"] ∧
  slice_elems (w_heap w') (opt_proxyCommand nc_options)
    ≠ slice_elems (w_heap r.2) (opt_proxyCommand nc_options).
Proof.
  intros r w'.
  assert (H0 : slice_elems (w_heap r.2) (opt_proxyCommand nc_options)
               = ["nc"; "%h"; "%p"]) by by vm_compute.
  assert (H1 : slice_elems (w_heap w') (opt_proxyCommand nc_options)
               = ["nc"; "db"; "22"]) by by vm_compute.
  assert (H2 : slice_elems (w_heap w') (proxyCommand r.1) = ["nc"; "db"; "22"])
    by by vm_compute.
  repeat split; try done.
Qed.

(* ================================================================== *)
(** * Further properties of session establishment *)
(* ================================================================== *)

Section MoreEstablishment.

Context (E : Env).

(** While a handle holds a session, a call other than [Close] and
    [Wait] keeps it and dials nothing. *)
Lemma run_op_keeps (o : op) (c : goCryptoCommand) (s : Session) (w : World) :
  sess c = Some s →
  keeps_session o = true →
  sess (run_op E o c w).1 = Some s ∧
  ∃ evs, w_log (run_op E o c w).2 = w_log w ++ evs ∧
         dialed evs = [] ∧ handshakes evs = [] ∧ spawned evs = [].
Proof.
  intros Hs Hk. pose proof (ensureSession_live E c s w Hs) as He.
  destruct o; try discriminate Hk; run_method; rewrite ?He, ?Hs; simpl;
    repeat step; simpl; (split; [done|]);
    (by eexists) || (exists []; by rewrite app_nil_r).
Qed.

Lemma run_ops_keeps (os : list op) (c : goCryptoCommand) (s : Session)
    (w : World) :
  sess c = Some s →
  forallb keeps_session os = true →
  sess (run_ops E os c w).1 = Some s ∧
  ∃ evs, w_log (run_ops E os c w).2 = w_log w ++ evs ∧
         dialed evs = [] ∧ handshakes evs = [] ∧ spawned evs = [].
Proof.
  revert c w. induction os as [|o os IH]; intros c w Hs Hk.
  { split; [done|]. exists []. by rewrite app_nil_r. }
  simpl in Hk. apply andb_true_iff in Hk as [Ho Hos].
  simpl. unfold mbind, M_bind.
  destruct (run_op_keeps o c s w Hs Ho) as (Hs1 & evs1 & Hl1 & Hd1 & Hh1 & Hp1).
  destruct (run_op E o c w) as [c1 w1]. simpl in *.
  destruct (IH c1 w1 Hs1 Hos) as (Hs2 & evs2 & Hl2 & Hd2 & Hh2 & Hp2).
  split; [done|]. exists (evs1 ++ evs2).
  rewrite Hl2, Hl1, <- app_assoc. split; [done|].
  unfold dialed, handshakes, spawned in *.
  by rewrite !bind_app, Hd1, Hd2, Hh1, Hh2, Hp1, Hp2.
Qed.

(** X1. Session establishment is not repeated while the handle holds
    its session: when [ensureSession] has handed out a session, every
    later [ensureSession] on the handle hands out the same session and
    calls nothing, and after any sequence of [Start], [Kill],
    [SetStdio] and pipe calls the handle still holds that session and
    nothing was dialled, no handshake was run and no process was
    started.  ([Close] and [Wait] are left out: they clear the
    session, and the next call establishes a new one.) *)
Theorem session_established_once (c c' : goCryptoCommand) (s : Session)
    (w w' w2 : World) (os : list op) :
  ensureSession E c w = ((c', inr s), w') →
  ensureSession E c' w2 = ((c', inr s), w2) ∧
  (forallb keeps_session os = true →
   let r := run_ops E os c' w2 in
   sess r.1 = Some s ∧
   dialed (since w2 r.2) = [] ∧ handshakes (since w2 r.2) = [] ∧
   spawned (since w2 r.2) = []).
Proof.
  intros He.
  assert (Hs' : sess c' = Some s).
  { destruct (sess c) eqn:Hs.
    - rewrite (ensureSession_live E c s0 w Hs) in He. by simplify_eq.
    - revert He. run. rewrite Hs. repeat step; intros; by simplify_eq. }
  split; [by apply ensureSession_live|].
  intros Hk. simpl.
  destruct (run_ops_keeps os c' s w2 Hs' Hk) as (Hs2 & evs & Hl & Hd & Hh & Hp).
  split; [done|]. unfold since. rewrite Hl, drop_app_length. done.
Qed.

(** X2. A session establishment that fails leaves the handle without
    session and without client: [Start] returns the error and sends
    no request, and afterwards [Wait] and [Kill] report that the
    command has not been started and [Close] does nothing. *)
Theorem failed_establishment_leaves_idle (c : goCryptoCommand) (w w2 : World)
    (e : error) :
  handle_ok c →
  (ensureSession E c w).1.2 = inl e →
  let c' := (ensureSession E c w).1.1 in
  sess c' = None ∧ client c' = None ∧
  Start E c w = ((c', Some e), (ensureSession E c w).2) ∧
  Wait E c' w2 = ((c', Returns (Some errNotStarted)), w2) ∧
  Kill E c' w2 = ((c', Some errNotStarted), w2) ∧
  Close E c' w2 = ((c', Returns None), w2).
Proof.
  intros Hok He c'.
  assert (Hs : sess c' = None ∧ client c' = None).
  { subst c'. revert He. unfold handle_ok in Hok. run.
    destruct (sess c) eqn:Hs; simpl; [done|].
    repeat step; simpl; intros; by simplify_eq. }
  destruct Hs as [Hs Hc]. split; [done|]. split; [done|]. split.
  - subst c'. run_method.
    destruct (ensureSession E c w) as [[c1 r] w1]. simpl in *. by subst r.
  - repeat split; run_method; by rewrite Hs.
Qed.


End MoreEstablishment.

Section MoreLifecycle.

Context (E : Env).

(** X4. On a handle with a live session, [Close] closes the session
    and then the connection, the connection also when closing the
    session failed; it returns the error of the session close if
    there is one and otherwise that of the connection close, and
    leaves the handle without session and without client. *)
Theorem Close_closes_both (c : goCryptoCommand) (s : Session) (w : World) :
  handle_ok c →
  sess c = Some s →
  let err0 := outcome E (w_log w ++ [EvSessClose (sess_id s)]) in
  let err1 := outcome E (w_log w ++ [EvSessClose (sess_id s);
                                     EvConnClose (sess_conn s)]) in
  ∃ w', Close E c w =
          ((set_session c None None,
            Returns (Foreign <$> match err0 with Some _ => err0 | None => err1 end)),
           w') ∧
        since w w' = [EvSessClose (sess_id s); EvConnClose (sess_conn s)].
Proof.
  unfold handle_ok. intros Hc Hs. rewrite Hs in Hc.
  run_method. rewrite Hs, Hc. simpl. rewrite <- !app_assoc. simpl.
  eexists. split; [|by rewrite since_app].
  by destruct (outcome E (w_log w ++ [EvSessClose (sess_id s)])).
Qed.

(** X5. [Kill] never changes the handle and never closes anything; on
    a live session it sends the kill signal, once, and returns what
    sending it returned. *)
Theorem Kill_only_signals (c : goCryptoCommand) (w : World) :
  (Kill E c w).1.1 = c ∧
  conns_closed (since w (Kill E c w).2) = [] ∧
  sessions_closed (since w (Kill E c w).2) = [] ∧
  (∀ s, sess c = Some s →
        since w (Kill E c w).2 = [EvSignalKill (sess_id s)] ∧
        (Kill E c w).1.2
          = Foreign <$> outcome E (w_log w ++ [EvSignalKill (sess_id s)])).
Proof.
  run_method. destruct (sess c) as [s|]; simpl; rewrite ?since_app, ?since_refl.
  - split; [done|]. split; [done|]. split; [done|]. by intros ? [= <-].
  - by repeat (split; [done|]).
Qed.

(** X6. [Start] never closes what it established: whether the shell
    or exec request is accepted or refused, the handle afterwards
    holds the live session and its client, and neither a session nor
    a connection was closed after the session was there. *)
Theorem Start_failure_keeps_session (c c' : goCryptoCommand) (s : Session)
    (w w' : World) :
  handle_ok c →
  ensureSession E c w = ((c', inr s), w') →
  (Start E c w).1.1 = c' ∧
  sess c' = Some s ∧ client c' = Some (sess_conn s) ∧
  conns_closed (since w' (Start E c w).2) = [] ∧
  sessions_closed (since w' (Start E c w).2) = [].
Proof.
  intros Hok He.
  destruct (ensureSession_result E c w s Hok) as [Hs Hc]; [by rewrite He|].
  rewrite He in Hs, Hc. simpl in Hs, Hc.
  run_method. rewrite He. simpl.
  destruct (decide (command c' = "")); simpl; by rewrite since_app.
Qed.

(** X7. The two transports exclude each other.  Without a proxy
    command, session establishment opens no pipe, starts no process
    and dials nothing but the address of the handle; with a proxy
    command it dials nothing over TCP. *)
Theorem one_transport (c : goCryptoCommand) (w : World) :
  let evs := since w (ensureSession E c w).2 in
  (s_len (proxyCommand c) = 0 →
     pipe_ends_opened evs = [] ∧ spawned evs = [] ∧
     w_heap (ensureSession E c w).2 = w_heap w ∧
     (∀ a, a ∈ dialed evs → a = addr c)) ∧
  (s_len (proxyCommand c) ≠ 0 → dialed evs = []).
Proof.
  run. destruct (sess c); simpl.
  { rewrite since_refl. repeat split; try done.
    intros a Ha. by apply elem_of_nil in Ha. }
  split; intros Hl; repeat step; norm; repeat split; try done;
    intros a Ha; repeat (apply elem_of_cons in Ha as [->|Ha]; [done|]);
    by apply elem_of_nil in Ha.
Qed.


(** X9. Every key of the handle is offered in one handshake: session
    establishment runs at most one handshake, and it runs it for the
    address of the handle, the user of the session and all the
    signers of the handle together. *)
Theorem one_handshake_all_keys (c : goCryptoCommand) (w : World) :
  let evs := since w (ensureSession E c w).2 in
  handshakes evs = [] ∨
  ∃ cn, handshakes evs = [(cn, addr c, config_user E c w, signers c)].
Proof.
  unfold config_user. run. destruct (sess c); simpl.
  { left. by rewrite since_refl. }
  repeat step; norm; (by left) || (right; by eexists).
Qed.

End MoreLifecycle.

Section Reachable.

Context (CommandString : list string → string) (E : Env).

(** X15. What [Command] fixed stays fixed: after any calls on the
    handle, its signers, its address, its command string and its
    proxy command are those it was made with. *)
Theorem construction_fields_fixed (cl : GoCryptoClient) (host : string)
    (argv : list string) (options : option Options) (w0 w : World)
    (os : list op) :
  let c0 := (Command CommandString cl host argv options w0).1 in
  let c := (run_ops E os c0 w).1 in
  signers c = (if decide (length (client_signers cl) = 0)
               then w_keys w0 else client_signers cl) ∧
  addr c = addr c0 ∧
  command c = CommandString argv ∧
  proxyCommand c = match options with
                   | Some o => opt_proxyCommand o
                   | None => nil_slice
                   end.
Proof.
  intros c0 c.
  destruct (Command_fields CommandString cl host argv options w0)
    as (Hk & Hcmd & Hp & _).
  destruct (run_ops_frame E os c0 w) as (Hk' & Ha' & Hcmd' & Hp').
  fold c0 in Hk, Hcmd, Hp. fold c in Hk', Ha', Hcmd', Hp'.
  repeat split; congruence.
Qed.

(** X16. No handle a caller can hold makes [Close] or [Wait]
    dereference a nil client: after any calls on a handle made by
    [Command], both return. *)
Theorem never_panics (cl : GoCryptoClient) (host : string)
    (argv : list string) (options : option Options) (w0 w1 w : World)
    (os : list op) :
  let c := (run_ops E os (Command CommandString cl host argv options w0).1 w1).1 in
  (∃ e, (Close E c w).1.2 = Returns e) ∧
  (∃ e, (Wait E c w).1.2 = Returns e).
Proof.
  intros c.
  pose proof (reachable_ok CommandString E cl host argv options w0 w1 os) as Hok.
  fold c in Hok. unfold handle_ok in Hok. run_method.
  destruct (sess c) as [s|]; simpl; [rewrite Hok; simpl|]; split; by eexists.
Qed.

End Reachable.

(* ================================================================== *)
(** * Further properties of addresses and templates *)
(* ================================================================== *)

Section AddressFacts.

#[local] Arguments String.append : simpl nomatch.

Lemma append_snoc (a b : string) (x : ascii) :
  (a +:+ String x "") +:+ b = a +:+ String x b.
Proof. induction a as [|y a IH]; simpl; [done|by rewrite IH]. Qed.

Lemma length_append (a b : string) :
  String.length (a +:+ b) = (String.length a + String.length b)%nat.
Proof. induction a as [|x a IH]; simpl; [done|by rewrite IH]. Qed.

Lemma drop_str_app (a b : string) :
  drop_str (String.length a) (a +:+ b) = b.
Proof. induction a as [|x a IH]; simpl; [by destruct b|done]. Qed.

Lemma IndexByte_app_None (a b : string) (c : ascii) :
  IndexByte a c = None → IndexByte b c = None → IndexByte (a +:+ b) c = None.
Proof.
  induction a as [|x a IH]; simpl; [done|].
  destruct (Ascii.eqb x c); [done|].
  destruct (IndexByte a c); [done|]. intros _ Hb. by rewrite IH.
Qed.

Lemma drop_str_0 (s : string) : drop_str 0 s = s.
Proof. by destruct s. Qed.

Lemma HasPrefix_byte_false (s : string) (c : ascii) :
  IndexByte s c = None → HasPrefix s (String c "") = false.
Proof.
  destruct s as [|x s]; cbn [HasPrefix IndexByte]; [done|].
  rewrite (Ascii.eqb_sym c x). by destruct (Ascii.eqb x c).
Qed.

Lemma LastIndexByte_None (s : string) (c : ascii) :
  IndexByte s c = None → LastIndexByte s c = None.
Proof.
  induction s as [|x s IH]; simpl; [done|].
  destruct (Ascii.eqb x c); [done|].
  destruct (IndexByte s c); [done|]. intros _. by rewrite IH.
Qed.

Lemma LastIndexByte_app_last (a b : string) (c : ascii) :
  IndexByte b c = None →
  LastIndexByte (a +:+ String c b) c = Some (String.length a).
Proof.
  intros Hb. induction a as [|x a IH]; simpl.
  - by rewrite (LastIndexByte_None b c Hb), Ascii.eqb_refl.
  - by rewrite IH.
Qed.

Lemma IndexByte_Some_split (s : string) (c : ascii) (m : nat) :
  IndexByte s c = Some m →
  s = take_str m s +:+ String c (drop_str (S m) s) ∧
  IndexByte (take_str m s) c = None.
Proof.
  revert m. induction s as [|x s IH]; intros m; simpl; [done|].
  destruct (Ascii.eqb x c) eqn:Hx.
  - intros [= <-]. apply Ascii.eqb_eq in Hx as ->. by destruct s.
  - destruct (IndexByte s c) as [k|] eqn:Hk; [|done].
    intros [= <-]. destruct (IH k eq_refl) as [Hs Hn]. simpl.
    rewrite Hx, Hn. split; [|done].
    change (String x s = String x (take_str k s +:+ String c (drop_str (S k) s))).
    by rewrite <- Hs.
Qed.

(** The decimal digits hold none of the bytes that matter in an
    address. *)
Lemma digits_plain (d : Decimal.uint) (c : ascii) :
  c = ":"%char ∨ c = "["%char ∨ c = "]"%char →
  IndexByte (NilEmpty.string_of_uint d) c = None.
Proof.
  intros Hc. induction d; simpl; try done;
    rewrite IHd; by destruct Hc as [->|[->| ->]].
Qed.

Lemma Itoa_plain (n : Z) (c : ascii) :
  c = ":"%char ∨ c = "["%char ∨ c = "]"%char →
  IndexByte (Itoa n) c = None.
Proof.
  intros Hc. unfold Itoa, NilZero.string_of_int, NilZero.string_of_uint.
  destruct (Z.to_int n) as [d|d].
  - destruct d; try (by apply (digits_plain _ c Hc));
      by destruct Hc as [->|[->| ->]].
  - assert (Hd : IndexByte match d with
                           | Decimal.Nil => "0"
                           | _ => NilEmpty.string_of_uint d
                           end c = None).
    { destruct d; try (by apply (digits_plain _ c Hc));
        by destruct Hc as [->|[->| ->]]. }
    simpl. rewrite Hd. by destruct Hc as [->|[->| ->]].
Qed.


(** Joining and splitting an address are inverse. *)
Lemma SplitHostPort_JoinHostPort_eq (host port : string) :
  IndexByte host "[" = None → IndexByte host "]" = None →
  IndexByte port ":" = None → IndexByte port "[" = None →
  IndexByte port "]" = None →
  SplitHostPort (JoinHostPort host port) = inr (host, port).
Proof.
  intros Hh1 Hh2 Hp0 Hp1 Hp2. unfold JoinHostPort.
  destruct (IndexByte host ":") as [m|] eqn:Hc.
  - change ("[" +:+ host +:+ "]:" +:+ port)
      with (String "[" (host +:+ String "]" (String ":" port))).
    set (hp := String "[" (host +:+ String "]" (String ":" port))).
    assert (Hhp : hp = String "[" (host +:+ "]") +:+ String ":" port)
      by (subst hp; simpl; by rewrite append_snoc).
    assert (Hlen : String.length (String "[" (host +:+ "]"))
                   = S (S (String.length host)))
      by (simpl; rewrite length_append; simpl; lia).
    assert (Hlast : LastIndexByte hp ":" = Some (S (S (String.length host))))
      by (by rewrite Hhp, (LastIndexByte_app_last _ port ":" Hp0), Hlen).
    assert (Hrb : IndexByte hp "]" = Some (S (String.length host)))
      by (subst hp; simpl; by rewrite (IndexByte_app_first host _ "]" Hh2)).
    assert (Hl : String.length hp = S (S (S (String.length host + String.length port))))
      by (subst hp; simpl; rewrite length_append; simpl; lia).
    unfold SplitHostPort. rewrite Hlast, Hrb, Hl.
    replace (HasPrefix hp "[") with true by done.
    rewrite (proj2 (Nat.eqb_neq _ _)) by lia. rewrite Nat.eqb_refl.
    unfold splitHostPort_finish.
    assert (Hd1 : drop_str 1 hp = host +:+ String "]" (String ":" port)) by done.
    assert (Hd2 : drop_str (S (S (String.length host))) hp = String ":" port)
      by (by rewrite <- Hlen, Hhp, drop_str_app).
    assert (Hd3 : drop_str (S (S (S (String.length host)))) hp = port).
    { rewrite Hhp. replace (S (S (S (String.length host))))
        with (String.length (String "[" (host +:+ "]")) + 1)%nat by lia.
      apply drop_str_skip. }
    replace (S (String.length host) - 1)%nat with (String.length host) by lia.
    rewrite Hd1, Hd2, Hd3, take_str_app.
    rewrite (IndexByte_app_None host _ "[" Hh1) by (simpl; by rewrite Hp1).
    simpl. by rewrite Hp2.
  - change (host +:+ ":" +:+ port) with (host +:+ String ":" port).
    unfold SplitHostPort.
    rewrite (LastIndexByte_app_last host port ":" Hp0).
    assert (Hpre : HasPrefix (host +:+ String ":" port) "[" = false).
    { apply HasPrefix_byte_false. apply IndexByte_app_None; [done|].
      cbn [IndexByte]. by rewrite Hp1. }
    rewrite Hpre, take_str_app, Hc.
    unfold splitHostPort_finish. rewrite !drop_str_0.
    rewrite (IndexByte_app_None host _ "[" Hh1) by (simpl; by rewrite Hp1).
    rewrite (IndexByte_app_None host _ "]" Hh2) by (simpl; by rewrite Hp2).
    replace (S (String.length host)) with (String.length host + 1)%nat by lia.
    by rewrite drop_str_skip.
Qed.

End AddressFacts.

Section MoreTemplates.

Context (CommandString : list string → string) (E : Env).

(** The address [Command] joins splits back into the host it was given
    and the decimal port. *)
Lemma Command_target (cl : GoCryptoClient) (host : string)
    (argv : list string) (options : option Options) (w : World) :
  let h := (splitUserHost host).2 in
  let port := match options with
              | Some o => if decide (opt_port o ≠ 0%Z) then opt_port o else 22%Z
              | None => 22%Z
              end in
  IndexByte h "[" = None → IndexByte h "]" = None →
  proxy_target (addr (Command CommandString cl host argv options w).1)
  = (h, Itoa port).
Proof.
  intros h port Hh1 Hh2.
  destruct (Command_fields CommandString cl host argv options w)
    as (_ & _ & _ & _ & _ & _ & -> & _).
  unfold proxy_target. fold h.
  rewrite SplitHostPort_JoinHostPort_eq; [done|done|done|..];
    apply Itoa_plain; auto.
Qed.

(** X10. The tokens of a proxy command, for every host and port: when
    the host given to [Command] (after the user and '@') holds no
    bracket, session establishment through a proxy command starts the
    process whose arguments are those of the template with %h replaced
    by that host, %p by the decimal port of the options (22 by
    default) and %r by the user of the session. *)
Theorem proxy_tokens_of_Command (cl : GoCryptoClient) (host : string)
    (argv : list string) (o : Options) (w : World) :
  let r := Command CommandString cl host argv (Some o) w in
  let h := (splitUserHost host).2 in
  let port := if decide (opt_port o ≠ 0%Z) then opt_port o else 22%Z in
  IndexByte h "[" = None → IndexByte h "]" = None →
  slice_wf (w_heap w) (opt_proxyCommand o) →
  s_len (opt_proxyCommand o) ≠ 0 →
  reaches_dial E r.1 r.2 →
  proxy_target (addr r.1) = (h, Itoa port) ∧
  spawned (since r.2 (ensureSession E r.1 r.2).2)
  = [substitute h (Itoa port) (config_user E r.1 r.2)
       <$> slice_elems (w_heap w) (opt_proxyCommand o)].
Proof.
  intros r h port Hh1 Hh2 Hwf Hlen Hr.
  pose proof (Command_target cl host argv (Some o) w Hh1 Hh2) as Ht.
  destruct (Command_fields CommandString cl host argv (Some o) w)
    as (_ & _ & Hp & _ & _ & _ & _ & Hh).
  fold r in Ht, Hp, Hh. simpl in Ht. split; [done|].
  destruct (ensureSession_spawns E r.1 r.2 Hr) as [_ Hsp]; [by rewrite Hp|].
  rewrite Hsp, Hp, Ht, Hh. simpl.
  by rewrite substitute_in_place_elems.
Qed.

(** An argument without '%' holds no token. *)
Lemma substitute_plain (host port usr arg : string) :
  IndexByte arg "%" = None → substitute host port usr arg = arg.
Proof.
  intros Hp.
  assert (Hi : ∀ x, Index arg (String "%" x) = None).
  { intros x. clear -Hp. induction arg as [|b a IH]; [done|].
    cbn [Index HasPrefix]. cbn [IndexByte] in Hp.
    rewrite (Ascii.eqb_sym "%" b).
    destruct (Ascii.eqb b "%"); [done|]. simpl.
    destruct (IndexByte a "%"); [done|]. by rewrite IH. }
  assert (Hr : ∀ x new, Replace arg (String "%" x) new = arg).
  { intros x new. unfold Replace.
    destruct (String.length arg); simpl; [done|]. by rewrite Hi. }
  unfold substitute. destruct (decide (port ≠ "")); by rewrite !Hr.
Qed.

(** X11. A template without tokens stays as it is: when no element of
    the proxy command holds a '%', session establishment leaves every
    element unchanged. *)
Theorem template_without_tokens_unchanged (c : goCryptoCommand) (w : World) :
  slice_wf (w_heap w) (proxyCommand c) →
  Forall (λ arg, IndexByte arg "%" = None)
         (slice_elems (w_heap w) (proxyCommand c)) →
  slice_elems (w_heap (ensureSession E c w).2) (proxyCommand c)
  = slice_elems (w_heap w) (proxyCommand c).
Proof.
  intros Hwf Hall.
  destruct (ensureSession_effect E c w) as [[-> _]|(_ & _ & -> & _)]; [done|].
  rewrite substitute_in_place_elems by done.
  revert Hall. generalize (slice_elems (w_heap w) (proxyCommand c)) as l.
  intros l Hall. induction Hall as [|a l Ha _ IH]; [done|].
  rewrite fmap_cons. by rewrite substitute_plain, IH.
Qed.

(** One round of the loop writes to one cell. *)
Lemma slice_set_cell (h : heap) (sl : slice) (i : nat) (v : string) (k j : nat) :
  ¬ (k = s_arr sl ∧ j = (s_off sl + i)%nat) →
  cell (slice_set h sl i v) k j = cell h k j.
Proof.
  intros Hne. unfold cell, slice_set.
  destruct (decide (k = s_arr sl)) as [->|Hk].
  - rewrite lookup_alter_eq. destruct (h !! s_arr sl) as [a|]; simpl; [|done].
    apply list_lookup_insert_ne. intros Heq. by apply Hne.
  - by rewrite lookup_alter_ne.
Qed.

Lemma substitute_in_place_cell (host port usr : string) (sl : slice)
    (h : heap) (k j : nat) :
  ¬ in_window sl k j →
  cell (substitute_in_place host port usr sl h) k j = cell h k j.
Proof.
  unfold substitute_in_place, in_window.
  generalize (s_len sl) as n. intros n. induction n as [|n IH]; intros Hout; [done|].
  rewrite seq_S, foldl_app. simpl.
  rewrite slice_set_cell by (intros [-> ->]; apply Hout; split; [done|lia]).
  apply IH. intros [-> ?]. apply Hout. split; [done|lia].
Qed.

(** X12. Session establishment writes to the elements of the proxy
    command and to nothing else: every cell of every array outside the
    window of the template holds afterwards what it held before. *)
Theorem substitution_frame (c : goCryptoCommand) (w : World) (k j : nat) :
  ¬ in_window (proxyCommand c) k j →
  cell (w_heap (ensureSession E c w).2) k j = cell (w_heap w) k j.
Proof.
  intros Hout.
  destruct (ensureSession_effect E c w) as [[-> _]|(_ & _ & -> & _)]; [done|].
  by apply substitute_in_place_cell.
Qed.

End MoreTemplates.

(** X13. Splitting loses nothing: for every string, either it holds no
    '@', the user is empty and the host is the string, or the string
    is the user, '@' and the host, and the user holds no '@'. *)
Theorem splitUserHost_total (s : string) :
  (IndexByte s "@" = None ∧ splitUserHost s = ("", s)) ∨
  (s = (splitUserHost s).1 +:+ "@" +:+ (splitUserHost s).2 ∧
   IndexByte (splitUserHost s).1 "@" = None).
Proof.
  unfold splitUserHost, SplitN. rewrite Index_byte.
  destruct (IndexByte s "@") as [m|] eqn:Hm; [right|by left].
  destruct (IndexByte_Some_split s "@" m Hm) as [Hs Hn]. simpl.
  replace (m + 1)%nat with (S m) by lia. by split.
Qed.

(* ================================================================== *)
(** * The package manager *)
(* ================================================================== *)

Section SetProxyFacts.

Context (Settings : Type) (SetProxyCmds : Settings → list string)
        (Quote : string → string)
        (runCommand : list Manager.shell_event → list string → string * option string).

Lemma all_succeeded_cons (log : list Manager.shell_event) (cmd : string)
    (out : string) (cmds : list string) :
  runCommand log (Manager.bash_c Quote cmd) = (out, None) →
  Manager.all_succeeded Quote runCommand
    (log ++ [Manager.Ran (Manager.bash_c Quote cmd)]) cmds →
  Manager.all_succeeded Quote runCommand log (cmd :: cmds).
Proof.
  intros Hrun Hl [|i] x Hx; simpl in *.
  - simplify_eq. by rewrite app_nil_r, Hrun.
  - specialize (Hl i x Hx). by rewrite <- app_assoc in Hl.
Qed.

(** X14. [SetProxy] runs the commands of the commander in order, each
    as [bash -c] of the quoted command, and stops at the first one
    that fails.  Either every command succeeded, all were run and nil
    is returned; or the commands before the failing one succeeded, the
    failing one is the last one run, its failure is written to the
    error log once, and the error returned is that of the command
    behind "command failed: ". *)
Theorem SetProxy_stops_at_first_failure (settings : Settings)
    (log : list Manager.shell_event) :
  let cmds := SetProxyCmds settings in
  let r := Manager.SetProxy Settings SetProxyCmds Quote runCommand settings log in
  (Manager.all_succeeded Quote runCommand log cmds ∧
   r.1 = None ∧
   r.2 = log ++ (Manager.Ran ∘ Manager.bash_c Quote <$> cmds)) ∨
  (∃ done cmd rest e out,
     cmds = done ++ cmd :: rest ∧
     Manager.all_succeeded Quote runCommand log done ∧
     runCommand (log ++ (Manager.Ran ∘ Manager.bash_c Quote <$> done))
                (Manager.bash_c Quote cmd) = (out, Some e) ∧
     r.1 = Some ("command failed: " +:+ e) ∧
     r.2 = log ++ (Manager.Ran ∘ Manager.bash_c Quote <$> done ++ [cmd])
               ++ [Manager.LoggedError e (Manager.bash_c Quote cmd) out]).
Proof.
  unfold Manager.SetProxy. generalize (SetProxyCmds settings) as cmds.
  intros cmds. simpl.
  revert log. induction cmds as [|cmd cmds IH]; intros log.
  { left. simpl. rewrite app_nil_r. split; [|done]. by intros i cmd Hi. }
  cbn [Manager.setProxyLoop].
  destruct (runCommand log (Manager.bash_c Quote cmd)) as [out [e|]] eqn:Hrun.
  - right. exists [], cmd, cmds, e, out. simpl. rewrite app_nil_r.
    split; [done|]. split; [by intros i x Hi|]. split; [done|].
    split; [done|]. by rewrite <- app_assoc.
  - destruct (IH (log ++ [Manager.Ran (Manager.bash_c Quote cmd)]))
      as [(Ha & Hn & Hl)|(done & cmd' & rest & e & out' & Hc & Ha & Hr & Hm & Hl)].
    + left. split; [by eapply all_succeeded_cons|]. split; [done|].
      simpl in *. rewrite Hl. by rewrite <- app_assoc.
    + right. exists (cmd :: done), cmd', rest, e, out'.
      split; [by rewrite Hc|]. split; [by eapply all_succeeded_cons|].
      split; [|split; [done|]].
      * rewrite <- Hr. f_equal. rewrite fmap_cons. by rewrite <- app_assoc.
      * simpl in *. rewrite Hl. by rewrite <- !app_assoc.
Qed.

End SetProxyFacts.

(* ================================================================== *)
(** * The further properties at work *)
(* ================================================================== *)

Lemma session_established_once_witness :
  let r := ensureSession all_succeed wired_handle nc_world in
  let s := MkSession 2 (TCPConn 0) (Some 7%nat) (Some 8%nat) (Some 9%nat) in
  let r' := run_ops all_succeed [OpStart; OpKill; OpStdoutPipe; OpStart] r.1.1 r.2 in
  r.1.2 = inr s ∧
  ensureSession all_succeed r.1.1 ncr_world = ((r.1.1, inr s), ncr_world) ∧
  sess r'.1 = Some s ∧
  dialed (since r.2 r'.2) = [] ∧ handshakes (since r.2 r'.2) = [] ∧
  spawned (since r.2 r'.2) = [].
Proof.
  intros r s r'. split; [reflexivity|]. split.
  - exact (proj1 (session_established_once all_succeed wired_handle r.1.1 s
                    nc_world r.2 ncr_world [] eq_refl)).
  - exact (proj2 (session_established_once all_succeed wired_handle r.1.1 s
                    nc_world r.2 r.2 [OpStart; OpKill; OpStdoutPipe; OpStart]
                    eq_refl) eq_refl).
Defined.

(** After [Close] the next [Start] establishes a new session: there
    are two dials and two handshakes. *)
Example Start_Close_Start_dials_twice :
  let r := run_ops all_succeed [OpStart; OpClose; OpStart] wired_handle nc_world in
  dialed (w_log r.2) = ["host:2222"; "host:2222"] ∧
  length (handshakes (w_log r.2)) = 2.
Proof. split; reflexivity. Qed.

Lemma failed_establishment_leaves_idle_witness :
  let c' := (ensureSession dial_fails anon_handle nc_world).1.1 in
  user c' = "me" ∧
  sess c' = None ∧ client c' = None ∧
  Start dial_fails anon_handle nc_world
    = ((c', Some (Foreign "dial tcp: connection refused")),
       (ensureSession dial_fails anon_handle nc_world).2) ∧
  Wait dial_fails c' ncr_world = ((c', Returns (Some errNotStarted)), ncr_world) ∧
  Kill dial_fails c' ncr_world = ((c', Some errNotStarted), ncr_world) ∧
  Close dial_fails c' ncr_world = ((c', Returns None), ncr_world).
Proof.
  split; [reflexivity|].
  exact (failed_establishment_leaves_idle dial_fails anon_handle nc_world
           ncr_world (Foreign "dial tcp: connection refused") eq_refl eq_refl).
Defined.


Lemma Close_closes_both_witness :
  ∃ w', Close session_close_fails live_handle nc_world
        = ((set_session live_handle None None, Returns (Some (Foreign "EOF"))), w') ∧
        since nc_world w' = [EvSessClose 4; EvConnClose (TCPConn 1)].
Proof.
  exact (Close_closes_both session_close_fails live_handle live_session nc_world
           eq_refl eq_refl).
Defined.

Lemma Kill_only_signals_witness :
  since nc_world (Kill all_succeed live_handle nc_world).2 = [EvSignalKill 4] ∧
  (Kill all_succeed live_handle nc_world).1.2 = None.
Proof.
  exact (proj2 (proj2 (proj2 (Kill_only_signals all_succeed live_handle nc_world)))
           live_session eq_refl).
Defined.

Lemma Start_failure_keeps_session_witness :
  let c' := (ensureSession request_refused idle_handle nc_world).1.1 in
  let w' := (ensureSession request_refused idle_handle nc_world).2 in
  let s := MkSession 2 (TCPConn 0) None None None in
  (Start request_refused idle_handle nc_world).1.2
    = Some (Foreign "ssh: request failed") ∧
  (Start request_refused idle_handle nc_world).1.1 = c' ∧
  sess c' = Some s ∧ client c' = Some (sess_conn s) ∧
  conns_closed (since w' (Start request_refused idle_handle nc_world).2) = [] ∧
  sessions_closed (since w' (Start request_refused idle_handle nc_world).2) = [].
Proof.
  split; [reflexivity|].
  exact (Start_failure_keeps_session request_refused idle_handle
           (ensureSession request_refused idle_handle nc_world).1.1
           (MkSession 2 (TCPConn 0) None None None) nc_world
           (ensureSession request_refused idle_handle nc_world).2
           eq_refl eq_refl).
Defined.

Lemma one_transport_witness :
  (spawned (since nc_world (ensureSession all_succeed wired_handle nc_world).2) = [] ∧
   dialed (since nc_world (ensureSession all_succeed wired_handle nc_world).2)
     = ["host:2222"]) ∧
  dialed (since ncr_world (ensureSession all_succeed ncr_handle ncr_world).2) = [].
Proof.
  split.
  - split; [|reflexivity].
    exact (proj1 (proj2 (proj1 (one_transport all_succeed wired_handle nc_world)
                           eq_refl))).
  - exact (proj2 (one_transport all_succeed ncr_handle ncr_world)
             ltac:(discriminate)).
Defined.


Lemma bob_reaches_dial :
  reaches_dial all_succeed
    (Command joined one_key "bob@db" ["ls"] (Some nc_options_5432) nc_world).1
    (Command joined one_key "bob@db" ["ls"] (Some nc_options_5432) nc_world).2.
Proof. repeat split; discriminate. Defined.

Lemma proxy_tokens_of_Command_witness :
  let r := Command joined one_key "bob@db" ["ls"] (Some nc_options_5432) nc_world in
  proxy_target (addr r.1) = ("db", "5432") ∧
  spawned (since r.2 (ensureSession all_succeed r.1 r.2).2)
  = [substitute "db" "5432" "bob" <$> ["nc"; "%h"; "%p"]].
Proof.
  exact (proxy_tokens_of_Command joined all_succeed one_key "bob@db" ["ls"]
           nc_options_5432 nc_world eq_refl eq_refl nc_template_wf
           ltac:(discriminate) bob_reaches_dial).
Defined.

Lemma plain_template_wf : slice_wf (w_heap plain_world) plain_template.
Proof. right. eexists. split; [reflexivity|]. simpl. lia. Defined.

Lemma template_without_tokens_unchanged_witness :
  spawned (since plain_world (ensureSession all_succeed plain_handle plain_world).2)
  = [["corkscrew"; "proxy"; "8080"]] ∧
  slice_elems (w_heap (ensureSession all_succeed plain_handle plain_world).2)
              plain_template
  = ["corkscrew"; "proxy"; "8080"].
Proof.
  split; [reflexivity|].
  refine (template_without_tokens_unchanged all_succeed plain_handle plain_world
            plain_template_wf _).
  repeat constructor.
Defined.

Lemma substitution_frame_witness :
  cell (w_heap (ensureSession all_succeed ncr_handle ncr_world).2) 3 1 = Some "nc" ∧
  cell (w_heap (ensureSession all_succeed ncr_handle ncr_world).2) 3 2 = Some "host" ∧
  cell (w_heap (ensureSession all_succeed ncr_handle ncr_world).2) 3 0 = Some "ssh".
Proof.
  split; [reflexivity|]. split; [reflexivity|].
  refine (substitution_frame all_succeed ncr_handle ncr_world 3 0 _).
  intros [_ [H _]]. simpl in H. lia.
Defined.

Lemma never_panics_witness :
  let c := (run_ops all_succeed [OpStart; OpKill; OpWait; OpClose]
              (Command joined one_key "alice@host" ["echo"; "hi"] None nc_world).1
              nc_world).1 in
  sess c = None ∧
  ∃ e, (Close all_succeed c nc_world).1.2 = Returns e.
Proof.
  split; [reflexivity|].
  exact (proj1 (never_panics joined all_succeed one_key "alice@host"
                  ["echo"; "hi"] None nc_world nc_world nc_world
                  [OpStart; OpKill; OpWait; OpClose])).
Defined.

(** [SetProxy] on three commands of which the second fails. *)
Example SetProxy_three_commands :
  Manager.SetProxy unit three_commands Manager.plain_quote Manager.false_fails () []
  = (Some "command failed: exit status 1",
     [Manager.Ran ["bash"; "-c"; "'true'"];
      Manager.Ran ["bash"; "-c"; "'false'"];
      Manager.LoggedError "exit status 1" ["bash"; "-c"; "'false'"] ""]).
Proof. reflexivity. Qed.
